(** * Currency rates downloader

    A shallow embedding of [currency_rates_downloader.py] and the
    properties of its synchronization logic.

    The script talks to three outside parties: the two banks' HTTP feeds
    (through [requests]), the database (through the module-level cursor
    [cur]) and the mail server.  Their answers are inputs of the model: an
    oracle receives the calls made so far and returns the answer to the next
    one, and every call is recorded as an [event].  The library functions the
    script relies on ([ET.fromstring], [datetime.strptime], [float]) are
    parameters of the development as well; a Python exception is a [Raise]
    result that skips the rest of the computation, unless the source catches
    it.  The [print] calls are not modelled. *)

From Stdlib Require Import ZArith QArith List Ascii Lia.
From stdpp Require Import base strings list gmap pretty.

Local Open Scope Z_scope.
Local Open Scope string_scope.
Local Open Scope list_scope.

(** ** Calendar dates ([datetime.date]) *)

Record date := Date { year : nat; month : nat; day : nat }.

#[global] Instance date_eq_dec : EqDecision date.
Proof. solve_decision. Defined.

(** [a < b] on dates: Python compares (year, month, day) lexicographically. *)
Definition date_ltb (a b : date) : bool :=
  if decide (year a = year b) then
    if decide (month a = month b) then bool_decide (day a < day b)%nat
    else bool_decide (month a < month b)%nat
  else bool_decide (year a < year b)%nat.

Definition date_lt (a b : date) : Prop := date_ltb a b = true.
Definition date_le (a b : date) : Prop := date_lt a b \/ a = b.

(** The line feed, and [str(date)], which is [date.isoformat()]:
    [%04d-%02d-%02d]. *)
Definition nl : string := String (Ascii.ascii_of_nat 10) "".

Fixpoint zeros (n : nat) : string :=
  match n with
  | O => ""
  | S k => "0" +:+ zeros k
  end.

Definition zfill (width : nat) (s : string) : string :=
  zeros (width - String.length s) +:+ s.

Definition isoformat (d : date) : string :=
  zfill 4 (pretty (year d)) +:+ "-" +:+ zfill 2 (pretty (month d))
    +:+ "-" +:+ zfill 2 (pretty (day d)).

(** ** XML trees ([xml.etree.ElementTree.Element]) *)

#[warnings="-register-all"] Inductive element : Type :=
  Element { tag : string;
            attrib : gmap string string;
            text : option string;
            children : list element }.

(** ** Python values that reach the script's strings and SQL parameters *)

(** [str.replace(',', '.')]. *)
Fixpoint replace_comma (s : string) : string :=
  match s with
  | EmptyString => EmptyString
  | String c rest =>
      String (if Ascii.eqb c ","%char then "."%char else c) (replace_comma rest)
  end.

(** [str(x)] for [x] a string or [None], as ["{}".format(x)] renders it. *)
Definition py_str (x : option string) : string :=
  match x with
  | Some s => s
  | None => "None"
  end.

(** ["{}: {}/{}".format(a, b, c) + "\n"] with the arguments rendered. *)
Definition format_rate (a b c : string) : string :=
  a +:+ ": " +:+ b +:+ "/" +:+ c +:+ nl.

(** The fourth parameter of the save-rate statement: the text of the
    [Nominal] child (possibly [None]) for the CBR feed, the integer [1] for
    the NBU feed. *)
Inductive nominal_param : Type :=
  | NominalText (t : option string)
  | NominalInt (n : Z).

(** Result of [requests.get(url, timeout=...)]: the two exception classes the
    script tells apart, an exception that is no [requests.RequestException]
    (none of the [except] clauses of [download_rates] is for it), or a
    response with its status code and text. *)
Inductive get_outcome : Type :=
  | GetTimeout
  | GetRequestException
  | GetOtherException
  | GetResponse (status_code : Z) (body : string).

(** Exceptions that leave [save_data], and the one of [requests.get] that
    leaves [download_rates]. *)
Inductive exn : Type :=
  | ParseError
  | KeyError (key : string)
  | AttributeError
  | ValueError
  | DatabaseError
  | OtherException.

Inductive result (A : Type) : Type :=
  | Ok (a : A)
  | Raise (e : exn).
Arguments Ok {A} a.
Arguments Raise {A} e.

Section Downloader.

(** The value [float(...)] returns, and the three library functions:
    [ET.fromstring], [datetime.datetime.strptime(s, "%d.%m.%Y").date()]
    and [float]; [None] stands for the exception each of them raises
    ([ParseError], [ValueError], [ValueError]). *)
Context {Float : Type}.
Variable fromstring : string -> option element.
Variable strptime : string -> option date.
Variable py_float : string -> option Float.

(** What [cur.execute] is called with. *)
Inductive statement : Type :=
  | SaveRate (in_crncy_id : Z) (identificator : option string) (d : date)
             (nominal : nominal_param) (value : Float)
  | Commit.

(** Calls to the outside world, in the order they are made. *)
Inductive event : Type :=
  | EvGet (url : string) (timeout : Z)
  | EvExecute (q : statement)
  | EvSendEmail (body : string).

(** The outside world: the answer to a call may depend on all calls made
    before it.  [cur_execute] returns [false] when the driver raises. *)
Variable requests_get : list event -> string -> Z -> get_outcome.
Variable cur_execute : list event -> statement -> bool.

(** ** The monad: calls so far in, result and new calls out *)

Definition io (A : Type) : Type := list event -> result A * list event.

Definition ret {A} (a : A) : io A := fun _ => (Ok a, []).
Definition raise {A} (e : exn) : io A := fun _ => (Raise e, []).
Definition bind {A B} (m : io A) (f : A -> io B) : io B :=
  fun h =>
    match m h with
    | (Ok a, evs) =>
        match f a (h ++ evs) with
        | (r, evs') => (r, evs ++ evs')
        end
    | (Raise e, evs) => (Raise e, evs)
    end.

Notation "x <- m ;; k" := (bind m (fun x => k))
  (at level 100, m at next level, right associativity).
Notation "m ;;; k" := (bind m (fun _ => k))
  (at level 100, right associativity).

(** [for x in l: acc = f(acc, x)] *)
Fixpoint for_each {A B} (f : B -> A -> io B) (acc : B) (l : list A) : io B :=
  match l with
  | [] => ret acc
  | x :: rest => acc' <- f acc x ;; for_each f acc' rest
  end.

Definition get (url : string) (timeout : Z) : io get_outcome :=
  fun h => (Ok (requests_get h url timeout), [EvGet url timeout]).

Definition execute (q : statement) : io unit :=
  fun h => (if cur_execute h q then Ok tt else Raise DatabaseError,
            [EvExecute q]).

Definition send_email (e_body : string) : io unit :=
  fun _ => (Ok tt, [EvSendEmail e_body]).

(** [d[k]] on a dict: [KeyError] when the key is missing. *)
Definition getitem {V} (d : gmap string V) (k : string) : io V :=
  match d !! k with
  | Some v => ret v
  | None => raise (KeyError k)
  end.

(** [float(v.replace(',', '.'))]: [v] may be [None] (an element without
    text), which has no [replace]. *)
Definition to_float (v : option string) : io Float :=
  match v with
  | None => raise AttributeError
  | Some s =>
      match py_float (replace_comma s) with
      | Some x => ret x
      | None => raise ValueError
      end
  end.

(** [for detail in currency: crncy[detail.tag] = detail.text] *)
Definition fill (crncy : gmap string (option string)) (currency : element)
  : gmap string (option string) :=
  foldl (fun c detail => <[tag detail := text detail]> c) crncy
        (children currency).

(** ** [save_data] *)

(** Loop body, branch [var_in_crncy_id == 2] (lines 193-222). *)
Definition save_currency_cbr (d : date) (root : element)
    (var_in_crncy_id : Z) (crncy_list : gmap string date)
    (email_body_date : string) (currency : element) : io string :=
  id <- getitem (attrib currency) "ID" ;;
  match crncy_list !! id with
  | None => ret email_body_date
  | Some last =>
      if date_ltb last d then
        declared <- getitem (attrib root) "Date" ;;
        match strptime declared with
        | None => raise ValueError
        | Some doc_date =>
            if decide (d = doc_date) then
              let crncy := fill {[ "Identificator" := Some id ]} currency in
              identificator <- getitem crncy "Identificator" ;;
              nominal <- getitem crncy "Nominal" ;;
              value <- getitem crncy "Value" ;;
              rate <- to_float value ;;
              execute (SaveRate var_in_crncy_id identificator d
                                (NominalText nominal) rate) ;;;
              execute Commit ;;;
              charcode <- getitem crncy "CharCode" ;;
              ret (email_body_date
                     +:+ format_rate (py_str charcode) (py_str value)
                                     (py_str nominal))
            else ret email_body_date
        end
      else ret email_body_date
  end.

(** Loop body, the other branch (lines 224-245).  [None in crncy_list] is
    false: the keys of [crncy_list] are strings. *)
Definition save_currency_nbu (d : date) (var_in_crncy_id : Z)
    (crncy_list : gmap string date)
    (email_body_date : string) (currency : element) : io string :=
  let crncy := fill ∅ currency in
  r030 <- getitem crncy "r030" ;;
  match r030 ≫= (crncy_list !!.) with
  | None => ret email_body_date
  | Some last =>
      if date_ltb last d then
        rate_text <- getitem crncy "rate" ;;
        rate <- to_float rate_text ;;
        execute (SaveRate var_in_crncy_id r030 d (NominalInt 1) rate) ;;;
        execute Commit ;;;
        cc <- getitem crncy "cc" ;;
        ret (email_body_date
               +:+ format_rate (py_str cc) (py_str rate_text) (pretty 1))
      else ret email_body_date
  end.

Definition save_currency (d : date) (root : element) (var_in_crncy_id : Z)
    (crncy_list : gmap string date)
    (email_body_date : string) (currency : element) : io string :=
  if (var_in_crncy_id =? 2)%Z
  then save_currency_cbr d root var_in_crncy_id crncy_list
                         email_body_date currency
  else save_currency_nbu d var_in_crncy_id crncy_list
                         email_body_date currency.

Definition save_data (d : date) (response_text : string)
    (var_in_crncy_id : Z) (crncy_list : gmap string date) : io string :=
  match fromstring response_text with
  | None => raise ParseError
  | Some root =>
      for_each (save_currency d root var_in_crncy_id crncy_list) ""
               (children root)
  end.

(** ** The loop body, decisions apart from calls

    What one turn of the loop of [save_data] does is decided before its
    first call: it raises, it skips the entry, or it saves a rate and
    appends a line (or raises for the missing display code, after the
    rate is saved).  [plan_cbr] and [plan_nbu] compute that decision and
    [run_plan] carries it out; [save_currency_plan] below shows that
    this is the loop body. *)

Inductive plan : Type :=
  | PlanRaise (e : exn)
  | PlanDrop
  | PlanSave (key : option string) (nominal : nominal_param) (value : Float)
             (line : result string).

Definition plan_cbr (d : date) (root : element)
    (crncy_list : gmap string date) (currency : element) : plan :=
  match attrib currency !! "ID" with
  | None => PlanRaise (KeyError "ID")
  | Some id =>
  match crncy_list !! id with
  | None => PlanDrop
  | Some last =>
  if date_ltb last d then
    match attrib root !! "Date" with
    | None => PlanRaise (KeyError "Date")
    | Some declared =>
    match strptime declared with
    | None => PlanRaise ValueError
    | Some doc_date =>
    if decide (d = doc_date) then
      let crncy := fill {[ "Identificator" := Some id ]} currency in
      match crncy !! "Identificator" with
      | None => PlanRaise (KeyError "Identificator")
      | Some identificator =>
      match crncy !! "Nominal" with
      | None => PlanRaise (KeyError "Nominal")
      | Some nominal =>
      match crncy !! "Value" with
      | None => PlanRaise (KeyError "Value")
      | Some None => PlanRaise AttributeError
      | Some (Some value) =>
      match py_float (replace_comma value) with
      | None => PlanRaise ValueError
      | Some rate =>
          PlanSave identificator (NominalText nominal) rate
            match crncy !! "CharCode" with
            | None => Raise (KeyError "CharCode")
            | Some charcode =>
                Ok (format_rate (py_str charcode) value (py_str nominal))
            end
      end end end end
    else PlanDrop
    end end
  else PlanDrop
  end end.

Definition plan_nbu (d : date) (crncy_list : gmap string date)
    (currency : element) : plan :=
  let crncy := fill ∅ currency in
  match crncy !! "r030" with
  | None => PlanRaise (KeyError "r030")
  | Some r030 =>
  match r030 ≫= (crncy_list !!.) with
  | None => PlanDrop
  | Some last =>
  if date_ltb last d then
    match crncy !! "rate" with
    | None => PlanRaise (KeyError "rate")
    | Some None => PlanRaise AttributeError
    | Some (Some rate_text) =>
    match py_float (replace_comma rate_text) with
    | None => PlanRaise ValueError
    | Some rate =>
        PlanSave r030 (NominalInt 1) rate
          match crncy !! "cc" with
          | None => Raise (KeyError "cc")
          | Some cc => Ok (format_rate (py_str cc) rate_text (pretty 1))
          end
    end end
  else PlanDrop
  end end.

Definition plan_of (d : date) (root : element) (var_in_crncy_id : Z)
    (crncy_list : gmap string date) (currency : element) : plan :=
  if (var_in_crncy_id =? 2)%Z then plan_cbr d root crncy_list currency
  else plan_nbu d crncy_list currency.

Definition run_plan (var_in_crncy_id : Z) (d : date)
    (email_body_date : string) (p : plan) : io string :=
  match p with
  | PlanRaise e => raise e
  | PlanDrop => ret email_body_date
  | PlanSave key nominal value line =>
      execute (SaveRate var_in_crncy_id key d nominal value) ;;;
      execute Commit ;;;
      match line with
      | Ok l => ret (email_body_date +:+ l)
      | Raise e => raise e
      end
  end.

(** ** [download_rates] *)

Definition header (var_in_crncy_id : Z) : string :=
  if (var_in_crncy_id =? 2)%Z
  then "Downloaded exchange rates from CBR:" +:+ nl +:+ nl
  else "Downloaded exchange rates from NBU :" +:+ nl +:+ nl.

(** [response.raise_for_status()] raises [HTTPError] for 4xx and 5xx. *)
Definition is_http_error (status_code : Z) : bool :=
  (400 <=? status_code)%Z && (status_code <? 600)%Z.

Definition date_section (d : date) (email_body_date : string) : string :=
  "***** Exchange rates on date " +:+ isoformat d +:+ " *****"
    +:+ nl +:+ email_body_date +:+ nl.

(** One turn of the loop over [url_list.items()] (lines 143-164); the
    state is [(has_result_to_send, email_body)].  The three [except]
    clauses only print, and an exception of [requests.get] that none of
    them names leaves the loop; [save_data] runs in the [else] clause,
    outside their reach. *)
Definition download_item (var_in_crncy_id : Z)
    (crncy_list : gmap string date)
    (st : bool * string) (item : date * string) : io (bool * string) :=
  let d := item.1 in
  let url := item.2 in
  response <- get url 30 ;;
  email_body_date <-
    match response with
    | GetTimeout => ret ""
    | GetRequestException => ret ""
    | GetOtherException => raise OtherException
    | GetResponse status_code body =>
        if is_http_error status_code then ret ""
        else body_date <- save_data d body var_in_crncy_id crncy_list ;;
             ret ("" +:+ body_date)
    end ;;
  if decide (email_body_date = "") then ret st
  else ret (true, st.2 +:+ date_section d email_body_date).

(** [url_list] is a dict from dates to URLs, iterated in insertion order:
    a list of pairs (whose dates are distinct in the script). *)
Definition download_rates (url_list : list (date * string))
    (crncy_list : gmap string date) (var_in_crncy_id : Z)
  : io (bool * string) :=
  for_each (download_item var_in_crncy_id crncy_list)
           (false, header var_in_crncy_id) url_list.

(** ** The main block *)

(** Lines 325-331. *)
Definition form_email_body (cbr_has_result_to_send : bool)
    (email_body_cbr : string) (nbu_has_result_to_send : bool)
    (email_body_nbu : string) : string :=
  if cbr_has_result_to_send && negb nbu_has_result_to_send
  then "" +:+ email_body_cbr
  else if cbr_has_result_to_send && nbu_has_result_to_send
  then email_body_cbr +:+ nl +:+ nl +:+ email_body_nbu
  else if negb cbr_has_result_to_send && nbu_has_result_to_send
  then "" +:+ email_body_nbu
  else "".

Definition ID_CBR : Z := 2.
Definition ID_NBU : Z := 8.

(** Lines 333-338: the email is sent only when there is something in it. *)
Definition notify (email_body : string) : io unit :=
  if decide (email_body = "") then ret tt else send_email email_body.

(** Lines 310-338, given what [get_url_list] and [get_crncy_list] return
    for each bank. *)
Definition main (url_list_cbr : list (date * string))
    (crncy_list_cbr : gmap string date)
    (url_list_nbu : list (date * string))
    (crncy_list_nbu : gmap string date) : io unit :=
  cbr <- download_rates url_list_cbr crncy_list_cbr ID_CBR ;;
  nbu <- download_rates url_list_nbu crncy_list_nbu ID_NBU ;;
  notify (form_email_body cbr.1 cbr.2 nbu.1 nbu.2).

(** ** Reading a trace *)

(** The (currency, date) pair of a save-rate call, and its nominal. *)
Definition saved_pair (e : event) : option (option string * date) :=
  match e with
  | EvExecute (SaveRate _ c d _ _) => Some (c, d)
  | _ => None
  end.


Definition saved_pairs (evs : list event) : list (option string * date) :=
  omap saved_pair evs.

(** The URL and the timeout of a GET. *)
Definition requested (e : event) : option (string * Z) :=
  match e with
  | EvGet url timeout => Some (url, timeout)
  | _ => None
  end.

Definition is_get (e : event) : Prop :=
  match e with
  | EvGet _ _ => True
  | _ => False
  end.

Definition requests (evs : list event) : list (string * Z) :=
  omap requested evs.

(** Every call a computation makes satisfies [P]. *)
Definition all_calls {A} (P : event -> Prop) (m : io A) : Prop :=
  forall h r evs, m h = (r, evs) -> Forall P evs.

(** A call on which [C] names an exception ends the computation with that
    exception: no call follows it. *)
Definition aborts_on {A} (C : list event -> event -> option exn) (m : io A)
  : Prop :=
  forall h r evs pre x post e,
    m h = (r, evs) -> evs = pre ++ x :: post -> C (h ++ pre) x = Some e ->
    r = Raise e /\ post = [].

(** The database rejects the statement. *)
Definition rejected (h : list event) (x : event) : option exn :=
  match x with
  | EvExecute q => if cur_execute h q then None else Some DatabaseError
  | _ => None
  end.

(** The GET is answered (no timeout, no transport error, no 4xx or 5xx
    status) with a text that is not well-formed XML. *)
Definition malformed (h : list event) (x : event) : option exn :=
  match x with
  | EvGet url timeout =>
      match requests_get h url timeout with
      | GetResponse status_code body =>
          if is_http_error status_code then None
          else match fromstring body with
               | None => Some ParseError
               | Some _ => None
               end
      | _ => None
      end
  | _ => None
  end.

(** What nothing in the script catches: a document that does not parse,
    a statement the database rejects. *)
Definition fatal (h : list event) (x : event) : option exn :=
  match malformed h x with
  | Some e => Some e
  | None => rejected h x
  end.

(** A database call that, when it saves a rate, saves it for the given
    source and date. *)
Definition saves_for (var_in_crncy_id : Z) (d : date) (e : event) : Prop :=
  match e with
  | EvExecute (SaveRate i _ d' _ _) => i = var_in_crncy_id /\ d' = d
  | EvExecute Commit => True
  | _ => False
  end.

(** The lines of a date's report text, each from its three fields. *)
Definition report_lines (lines : list (string * string * string)) : string :=
  foldr (fun l s => format_rate l.1.1 l.1.2 l.2 +:+ s) "" lines.

(** ** The conditions of [save_data], named *)

(** [code in crncy_list and d > crncy_list[code]] (lines 198-199 and
    227-228). *)
Definition newer (crncy_list : gmap string date) (code : string) (d : date)
  : Prop :=
  exists last, crncy_list !! code = Some last /\ date_lt last d.

(** The currency code an entry is looked up under: the [ID] attribute, or
    the text of the [r030] child. *)
Definition filter_key (var_in_crncy_id : Z) (currency : element)
  : option (option string) :=
  if (var_in_crncy_id =? 2)%Z then Some <$> attrib currency !! "ID"
  else fill ∅ currency !! "r030".

(** The currency code an entry is saved under: [crncy['Identificator']],
    which a child element of that name overrides, or [crncy['r030']]. *)
Definition persist_key (var_in_crncy_id : Z) (currency : element)
  : option (option string) :=
  if (var_in_crncy_id =? 2)%Z then
    id ← attrib currency !! "ID";
    fill {[ "Identificator" := Some id ]} currency !! "Identificator"
  else fill ∅ currency !! "r030".

(** Every entry of the document has a currency code to be looked up
    under. *)
Definition has_codes (var_in_crncy_id : Z) (root : element) : Prop :=
  Forall (fun currency => is_Some (filter_key var_in_crncy_id currency))
         (children root).

(** The entries of the document are saved under codes that differ from
    one another. *)
Definition distinct_codes (var_in_crncy_id : Z) (root : element) : Prop :=
  NoDup (omap (persist_key var_in_crncy_id) (children root)).

(** No date of the work list is after a last-known date of
    [crncy_list]. *)
Definition up_to_date (url_list : list (date * string))
    (crncy_list : gmap string date) : Prop :=
  forall d url code last,
    (d, url) ∈ url_list -> crncy_list !! code = Some last -> date_le d last.

(** For the CBR feed the document declares a date that can be read. *)
Definition declares_date (var_in_crncy_id : Z) (root : element) : Prop :=
  var_in_crncy_id = 2 ->
  exists declared doc_date,
    attrib root !! "Date" = Some declared /\
    strptime declared = Some doc_date.

(** An entry of a document fetched for the date [d] is an observation of
    the currency [code] on that date: it has that code and, for the CBR
    feed, the document declares the date [d] (lines 198-201 and
    227-228). *)
Definition observation (var_in_crncy_id : Z) (d : date)
    (root currency : element) (code : string) : Prop :=
  currency ∈ children root /\
  filter_key var_in_crncy_id currency = Some (Some code) /\
  (var_in_crncy_id = 2 ->
   exists declared,
     attrib root !! "Date" = Some declared /\ strptime declared = Some d).

(** No new remote data: in the documents the work list fetches, no
    observation of a currency of [crncy_list] is after the last-known date
    of that currency. *)
Definition no_new_data (var_in_crncy_id : Z)
    (url_list : list (date * string)) (crncy_list : gmap string date)
  : Prop :=
  forall d url h status body root currency code last,
    (d, url) ∈ url_list ->
    requests_get h url 30 = GetResponse status body ->
    is_http_error status = false ->
    fromstring body = Some root ->
    observation var_in_crncy_id d root currency code ->
    crncy_list !! code = Some last ->
    date_le d last.

(** The three ways a fetch fails (lines 150-156). *)
Definition fetch_failed (r : get_outcome) : Prop :=
  match r with
  | GetTimeout | GetRequestException => True
  | GetOtherException => False
  | GetResponse status_code _ => is_http_error status_code = true
  end.

End Downloader.

Arguments statement : clear implicits.
Arguments event : clear implicits.
Arguments io : clear implicits.
Arguments plan : clear implicits.

(** ** Reading the work list and the currencies ([get_url_list],
       [get_crncy_list]) and the whole main block

    A cursor, once its SELECT is executed, is the list of the rows not yet
    fetched.  The SELECTs read the database through two more oracles, named
    after the SQL functions they call ([None]: the driver raises); they are
    not recorded in the trace, their COMMITs are.  [get_cursor] and
    [cleanup] only open and close the connection and are not modelled. *)

(** [cursor.fetchone()] *)
Definition fetchone {R} (cursor : list R) : option R * list R :=
  match cursor with
  | [] => (None, [])
  | row :: rest => (Some row, rest)
  end.

(** [while row is not None: d = body(d, row); row = cursor.fetchone()],
    with the [fetchone] of the loop written as a match on the cursor
    ([while_row_fetchone] below). *)
Fixpoint while_row {R D} (body : D -> R -> D) (d : D) (row : option R)
    (cursor : list R) : D * list R :=
  match row with
  | None => (d, cursor)
  | Some r =>
      match cursor with
      | [] => (body d r, [])
      | next :: rest => while_row body (body d r) (Some next) rest
      end
  end.

(** [d[k] = v] and [d.get(k)] on a Python dict, which keeps its keys in
    insertion order: assigning to a key that is present keeps its place. *)
Fixpoint dict_set {K V} `{EqDecision K} (d : list (K * V)) (k : K) (v : V)
  : list (K * V) :=
  match d with
  | [] => [(k, v)]
  | (k', v') :: rest =>
      if decide (k' = k) then (k', v) :: rest
      else (k', v') :: dict_set rest k v
  end.

Fixpoint dict_get {K V} `{EqDecision K} (d : list (K * V)) (k : K)
  : option V :=
  match d with
  | [] => None
  | (k', v') :: rest => if decide (k' = k) then Some v' else dict_get rest k
  end.

(** Lines 75-79 and 113-117, on the rows of the cursor; the result is the
    dict and the cursor as the loop leaves it. *)
Definition read_url_list (rows : list (date * string))
  : list (date * string) * list (date * string) :=
  while_row (fun url_list row => dict_set url_list row.1 row.2) []
            (fetchone rows).1 (fetchone rows).2.

Definition read_crncy_list (rows : list (string * date))
  : gmap string date * list (string * date) :=
  while_row (fun crncy_list row => <[row.1 := row.2]> crncy_list) ∅
            (fetchone rows).1 (fetchone rows).2.

Section Gateway.

Context {Float : Type}.
Variable fromstring : string -> option element.
Variable strptime : string -> option date.
Variable py_float : string -> option Float.
Variable requests_get : list (event Float) -> string -> Z -> get_outcome.
Variable cur_execute : list (event Float) -> statement Float -> bool.

(** [SELECT * FROM currency.f_crncy_downldr_return_url(%s, %s, %s, %s)] and
    [SELECT * FROM currency.f_crncy_downldr_return_crncs(%s, %s, %s)]. *)
Variable f_crncy_downldr_return_url :
  list (event Float) -> Z -> bool -> date -> date ->
  option (list (date * string)).
Variable f_crncy_downldr_return_crncs :
  list (event Float) -> Z -> bool -> date -> option (list (string * date)).

Notation "x <- m ;; k" := (bind m (fun x => k))
  (at level 100, m at next level, right associativity).
Notation "m ;;; k" := (bind m (fun _ => k))
  (at level 100, right associativity).

(** The result of a SELECT, or the driver's exception. *)
Definition select {R} (rows : list (event Float) -> option (list R))
  : io Float (list R) :=
  fun h =>
    match rows h with
    | Some cursor => (Ok cursor, [])
    | None => (Raise DatabaseError, [])
    end.

Definition get_url_list (var_in_crncy_id : Z) (var_check_min_threshold : bool)
    (var_min_threshold var_max_date : date) : io Float (list (date * string)) :=
  cursor <- select (fun h => f_crncy_downldr_return_url
                               h var_in_crncy_id var_check_min_threshold
                               var_min_threshold var_max_date) ;;
  let url_list := (read_url_list cursor).1 in
  execute cur_execute Commit ;;;
  ret url_list.

Definition get_crncy_list (var_in_crncy_id : Z)
    (var_check_min_threshold : bool) (var_min_threshold : date)
  : io Float (gmap string date) :=
  cursor <- select (fun h => f_crncy_downldr_return_crncs
                               h var_in_crncy_id var_check_min_threshold
                               var_min_threshold) ;;
  let crncy_list := (read_crncy_list cursor).1 in
  execute cur_execute Commit ;;;
  ret crncy_list.

Definition CHECK_MIN_THRESHOLD : bool := true.
Definition MIN_DATE : date := Date 2019 5 5.

(** The main block, lines 294-338, run on the day [MAX_DATE]. *)
Definition script (MAX_DATE : date) : io Float unit :=
  url_list <- get_url_list ID_CBR CHECK_MIN_THRESHOLD MIN_DATE MAX_DATE ;;
  crncy_list <- get_crncy_list ID_CBR CHECK_MIN_THRESHOLD MIN_DATE ;;
  cbr <- download_rates fromstring strptime py_float requests_get cur_execute
                        url_list crncy_list ID_CBR ;;
  url_list <- get_url_list ID_NBU CHECK_MIN_THRESHOLD MIN_DATE MAX_DATE ;;
  crncy_list <- get_crncy_list ID_NBU CHECK_MIN_THRESHOLD MIN_DATE ;;
  nbu <- download_rates fromstring strptime py_float requests_get cur_execute
                        url_list crncy_list ID_NBU ;;
  notify (form_email_body cbr.1 cbr.2 nbu.1 nbu.2).

(** ** More ways to read a trace *)

(** The source, currency and date of a save-rate call. *)
Definition saved_triple (e : event Float)
  : option (Z * option string * date) :=
  match e with
  | EvExecute (SaveRate i c d _ _) => Some (i, c, d)
  | _ => None
  end.

Definition saved_triples (evs : list (event Float))
  : list (Z * option string * date) :=
  omap saved_triple evs.

(** The bodies of the emails sent. *)
Definition emails (evs : list (event Float)) : list string :=
  omap (fun e => match e with EvSendEmail body => Some body | _ => None end)
       evs.

(** Every save-rate call is the last call or has its COMMIT right after
    it. *)
Fixpoint committed (evs : list (event Float)) : Prop :=
  match evs with
  | [] => True
  | EvExecute (SaveRate _ _ _ _ _) :: rest =>
      match rest with
      | [] => True
      | EvExecute Commit :: rest' => committed rest'
      | _ => False
      end
  | _ :: rest => committed rest
  end.

(** The last call is a save-rate call, still without its COMMIT. *)
Definition dangling (evs : list (event Float)) : Prop :=
  match last evs with
  | Some (EvExecute (SaveRate _ _ _ _ _)) => True
  | _ => False
  end.

(** A computation that commits each rate it saves, unless the save is its
    last call and it raises. *)
Definition commits_saves {A} (m : io Float A) : Prop :=
  forall h r evs,
    m h = (r, evs) ->
    committed evs /\ (dangling evs -> r = Raise DatabaseError).

End Gateway.


(** The commas of a text. *)
Fixpoint commas (s : string) : nat :=
  match s with
  | EmptyString => 0
  | String c rest => (if Ascii.eqb c ","%char then 1 else 0) + commas rest
  end%nat.

(** ** Reference instances of the library functions and of the outside world

    The properties below hold for every instance; these are the ones the
    worked examples run on. *)
Module Sample.

Definition digit_of (c : ascii) : option nat :=
  let n := nat_of_ascii c in
  if (48 <=? n)%nat && (n <=? 57)%nat then Some (n - 48)%nat else None.

Fixpoint digits_value (acc : nat) (s : string) : option nat :=
  match s with
  | EmptyString => Some acc
  | String c rest =>
      match digit_of c with
      | Some k => digits_value (10 * acc + k) rest
      | None => None
      end
  end.

(** Split at every full stop. *)
Fixpoint split_dot (s : string) : list string :=
  match s with
  | EmptyString => [""]
  | String c rest =>
      if Ascii.eqb c "."%char then "" :: split_dot rest
      else match split_dot rest with
           | [] => [String c ""]
           | w :: ws => String c w :: ws
           end
  end.

Definition in_range (lo hi : nat) (n : option nat) : option nat :=
  match n with
  | Some v => if (lo <=? v)%nat && (v <=? hi)%nat then Some v else None
  | None => None
  end.

(** [%d]: [3[0-1]|[1-2]\d|0[1-9]|[1-9]| [1-9]]. *)
Definition directive_d (s : string) : option nat :=
  match s with
  | String a EmptyString => in_range 1 9 (digit_of a)
  | String a (String b EmptyString) =>
      if Ascii.eqb a " "%char then in_range 1 9 (digit_of b)
      else in_range 1 31 (digits_value 0 s)
  | _ => None
  end.

(** [%m]: [1[0-2]|0[1-9]|[1-9]]. *)
Definition directive_m (s : string) : option nat :=
  match s with
  | String a EmptyString => in_range 1 9 (digit_of a)
  | String a (String b EmptyString) => in_range 1 12 (digits_value 0 s)
  | _ => None
  end.

(** [%Y]: four digits; [datetime.date] wants a year from 1 on. *)
Definition directive_Y (s : string) : option nat :=
  if (String.length s =? 4)%nat then
    match digits_value 0 s with
    | Some (S y) => Some (S y)
    | _ => None
    end
  else None.

Definition is_leap (y : nat) : bool :=
  ((y mod 4 =? 0) && negb (y mod 100 =? 0) || (y mod 400 =? 0))%nat.

Definition days_in_month (y m : nat) : nat :=
  match m with
  | 2 => if is_leap y then 29 else 28
  | 4 | 6 | 9 | 11 => 30
  | _ => 31
  end%nat.

(** [datetime.datetime.strptime(s, "%d.%m.%Y").date()] on ASCII text. *)
Definition strptime (s : string) : option date :=
  match split_dot s with
  | [ds; ms; ys] =>
      match directive_d ds, directive_m ms, directive_Y ys with
      | Some d, Some m, Some y =>
          if (d <=? days_in_month y m)%nat then Some (Date y m d) else None
      | _, _, _ => None
      end
  | _ => None
  end.

(** [float] on plain decimal text ([digits] or [digits.digits]), as an
    exact rational. *)
Definition py_float (s : string) : option Q :=
  match split_dot s with
  | [w] =>
      match w, digits_value 0 w with
      | String _ _, Some n => Some (inject_Z (Z.of_nat n))
      | _, _ => None
      end
  | [w; f] =>
      match w, f, digits_value 0 (w +:+ f) with
      | String _ _, String _ _, Some n =>
          Some (Qred (Z.of_nat n # Pos.of_nat (10 ^ String.length f)))
      | _, _, _ => None
      end
  | _ => None
  end.

(** A feed server: the URLs it knows and what it answers; any other URL
    cannot be reached. *)
Definition requests_get (site : list (string * get_outcome))
    (h : list (event Q)) (url : string) (timeout : Z) : get_outcome :=
  match list_find (fun p => bool_decide (p.1 = url)) site with
  | Some (_, (_, r)) => r
  | None => GetRequestException
  end.

(** An XML parser that knows the documents of a table. *)
Definition fromstring (docs : list (string * element)) (s : string)
  : option element :=
  match list_find (fun p => bool_decide (p.1 = s)) docs with
  | Some (_, (_, root)) => Some root
  | None => None
  end.

(** A database that works until [n] calls (of any kind) have been made,
    and fails from then on. *)
Definition cur_execute (n : nat) (h : list (event Q)) (q : statement Q)
  : bool :=
  bool_decide (length h < n)%nat.

(** An element with text and no attributes or children. *)
Definition leaf (name value : string) : element :=
  Element name ∅ (Some value) [].

Definition usd_cbr : element :=
  Element "Valute" {[ "ID" := "840" ]} None
          [leaf "NumCode" "840"; leaf "CharCode" "USD"; leaf "Nominal" "1";
           leaf "Name" "US Dollar"; leaf "Value" "90,5000"].

Definition cbr_doc (entries : list element) : element :=
  Element "ValCurs" {[ "Date" := "10.01.2024"; "name" := "Foreign Currency Market" ]}
          None entries.

Definition usd_nbu : element :=
  Element "currency" ∅ None
          [leaf "r030" "840"; leaf "txt" "US Dollar"; leaf "rate" "37.9824";
           leaf "cc" "USD"; leaf "exchangedate" "10.01.2024"].

Definition nbu_doc (entries : list element) : element :=
  Element "exchange" ∅ None entries.

Definition jan (d : nat) : date := Date 2024 1 d.

(** Entries and documents with something missing. *)
Definition usd_cbr_without (name : string) : element :=
  Element "Valute" {[ "ID" := "840" ]} None
          (filter (fun detail => tag detail <> name) (children usd_cbr)).

Definition usd_nbu_without (name : string) : element :=
  Element "currency" ∅ None
          (filter (fun detail => tag detail <> name) (children usd_nbu)).

Definition cbr_doc_undated (entries : list element) : element :=
  Element "ValCurs" {[ "name" := "Foreign Currency Market" ]} None entries.

(** The texts the feed server sends, with their parse trees; a text that
    is not in the table is not well-formed XML. *)
Definition cbr_text : string :=
  "<ValCurs Date='10.01.2024' name='Foreign Currency Market'>"
  +:+ "<Valute ID='840'><NumCode>840</NumCode><CharCode>USD</CharCode>"
  +:+ "<Nominal>1</Nominal><Name>US Dollar</Name><Value>90,5000</Value>"
  +:+ "</Valute></ValCurs>".

Definition nbu_text : string :=
  "<exchange><currency><r030>840</r030><txt>US Dollar</txt>"
  +:+ "<rate>37.9824</rate><cc>USD</cc>"
  +:+ "<exchangedate>10.01.2024</exchangedate></currency></exchange>".

Definition nbu_twice_text : string :=
  "<exchange><currency><r030>840</r030><txt>US Dollar</txt>"
  +:+ "<rate>37.9824</rate><cc>USD</cc>"
  +:+ "<exchangedate>10.01.2024</exchangedate></currency>"
  +:+ "<currency><r030>840</r030><txt>US Dollar</txt>"
  +:+ "<rate>37.9824</rate><cc>USD</cc>"
  +:+ "<exchangedate>10.01.2024</exchangedate></currency></exchange>".

Definition cbr_no_charcode_text : string :=
  "<ValCurs Date='10.01.2024' name='Foreign Currency Market'>"
  +:+ "<Valute ID='840'><NumCode>840</NumCode>"
  +:+ "<Nominal>1</Nominal><Name>US Dollar</Name><Value>90,5000</Value>"
  +:+ "</Valute></ValCurs>".

Definition nbu_no_r030_text : string :=
  "<exchange><currency><txt>US Dollar</txt>"
  +:+ "<rate>37.9824</rate><cc>USD</cc>"
  +:+ "<exchangedate>10.01.2024</exchangedate></currency></exchange>".

Definition truncated_text : string := "<ValCurs Date='10.01.2024'><Valute".

Definition docs : list (string * element) :=
  [ (cbr_text, cbr_doc [usd_cbr]);
    (nbu_text, nbu_doc [usd_nbu]);
    (nbu_twice_text, nbu_doc [usd_nbu; usd_nbu]);
    (cbr_no_charcode_text, cbr_doc [usd_cbr_without "CharCode"]);
    (nbu_no_r030_text, nbu_doc [usd_nbu_without "r030"]) ].

Definition site : list (string * get_outcome) :=
  [ ("https://cbr.example/daily?date=10/01/2024", GetResponse 200 cbr_text);
    ("https://cbr.example/daily?date=11/01/2024", GetResponse 200 cbr_text);
    ("https://cbr.example/daily?date=09/01/2024",
     GetResponse 200 truncated_text);
    ("https://cbr.example/daily?date=08/01/2024",
     GetResponse 200 cbr_no_charcode_text);
    ("https://nbu.example/exchange?date=20240110",
     GetResponse 200 nbu_text);
    ("https://nbu.example/exchange?date=20240111",
     GetResponse 200 nbu_twice_text);
    ("https://nbu.example/exchange?date=20240112",
     GetResponse 200 nbu_no_r030_text);
    ("https://nbu.example/exchange?date=20240113", GetResponse 503 "");
    ("https://nbu.example/exchange?date=20240114", GetTimeout) ].

Definition cbr_url (d : nat) : string :=
  "https://cbr.example/daily?date=" +:+ zfill 2 (pretty d) +:+ "/01/2024".

Definition nbu_url (d : nat) : string :=
  "https://nbu.example/exchange?date=202401" +:+ zfill 2 (pretty d).

(** The script against this server, with a database that fails after [n]
    calls. *)
Definition download (n : nat) :=
  download_rates (fromstring docs) strptime py_float (requests_get site)
                 (cur_execute n).

Definition save_entry (n : nat) :=
  save_currency strptime py_float (cur_execute n).

Definition save_document (n : nat) :=
  save_data (fromstring docs) strptime py_float (cur_execute n).

(** A parser that takes only the two documents without a fault. *)
Definition sound_docs : list (string * element) :=
  [ (cbr_text, cbr_doc [usd_cbr]); (nbu_text, nbu_doc [usd_nbu]) ].

(** The two stored functions of the database, over a table of feed URLs
    and a table of last-known dates, each row with its source; they fail
    when the database does. *)
Definition f_crncy_downldr_return_url (n : nat)
    (urls : list (Z * (date * string))) (h : list (event Q))
    (var_in_crncy_id : Z) (var_check_min_threshold : bool)
    (var_min_threshold var_max_threshold : date)
  : option (list (date * string)) :=
  if bool_decide (length h < n)%nat
  then Some (omap (fun row =>
                     if bool_decide (row.1 = var_in_crncy_id)
                        && negb (date_ltb row.2.1 var_min_threshold)
                        && negb (date_ltb var_max_threshold row.2.1)
                     then Some row.2 else None) urls)
  else None.

Definition f_crncy_downldr_return_crncs (n : nat)
    (crncs : list (Z * (string * date))) (h : list (event Q))
    (var_in_crncy_id : Z) (var_check_min_threshold : bool)
    (var_min_threshold : date)
  : option (list (string * date)) :=
  if bool_decide (length h < n)%nat
  then Some (omap (fun row =>
                     if bool_decide (row.1 = var_in_crncy_id)
                     then Some row.2 else None) crncs)
  else None.

Definition url_table : list (Z * (date * string)) :=
  [ (2, (jan 10, cbr_url 10)); (2, (jan 11, cbr_url 11));
    (8, (jan 10, nbu_url 10)); (8, (jan 13, nbu_url 13)) ]%Z.

Definition crncy_table : list (Z * (string * date)) :=
  [ (2, ("840", jan 8)); (8, ("840", jan 8)) ]%Z.

(** The main block against this server and this database. *)
Definition run_script (n : nat) :=
  script (fromstring sound_docs) strptime py_float (requests_get site)
         (cur_execute n) (f_crncy_downldr_return_url n url_table)
         (f_crncy_downldr_return_crncs n crncy_table).

(** A server that cannot be reached. *)
Definition download_offline (n : nat) :=
  download_rates (fromstring docs) strptime py_float (requests_get [])
                 (cur_execute n).

(** A CBR entry with a child named [Identificator]. *)
Definition usd_cbr_renamed : element :=
  Element "Valute" {[ "ID" := "840" ]} None
          (children usd_cbr ++ [leaf "Identificator" "R01235"]).

End Sample.

(** * Properties *)

(** ** Dates are totally ordered *)

Lemma date_ltb_spec (a b : date) :
  date_ltb a b = true <->
  (year a < year b \/
   year a = year b /\
   (month a < month b \/ month a = month b /\ day a < day b))%nat.
Proof.
  unfold date_ltb.
  destruct (decide (year a = year b)), (decide (month a = month b));
    rewrite bool_decide_eq_true; lia.
Qed.

Lemma date_ltb_false (a b : date) : date_ltb a b = false <-> date_le b a.
Proof.
  unfold date_le, date_lt. rewrite <- not_true_iff_false, !date_ltb_spec.
  split.
  - intros H.
    destruct (decide (year b = year a /\ month b = month a /\ day b = day a))
      as [(Hy & Hm & Hd) | Hne].
    + right. destruct a, b; simpl in *; congruence.
    + left. lia.
  - intros [H | ->]; lia.
Qed.

Lemma date_le_not_lt (a b : date) : date_le a b -> ~ date_lt b a.
Proof.
  intros H Hlt. apply date_ltb_false in H. unfold date_lt in Hlt. congruence.
Qed.

Lemma not_newer (crncy_list : gmap string date) (code : string) (d : date) :
  ~ newer crncy_list code d <->
  crncy_list !! code = None \/
  exists last, crncy_list !! code = Some last /\ date_le d last.
Proof.
  unfold newer, date_lt. split.
  - intros H. destruct (crncy_list !! code) as [last|] eqn:E; [right|by left].
    exists last. split; [done|]. apply date_ltb_false.
    destruct (date_ltb last d) eqn:E'; [|done]. destruct H. by exists last.
  - intros [H | (last & H & Hle)] (last' & H' & Hlt); [congruence|].
    simplify_eq. by apply date_le_not_lt in Hle.
Qed.

Section Properties.

Context {Float : Type}.
Variable fromstring : string -> option element.
Variable strptime : string -> option date.
Variable py_float : string -> option Float.
Variable requests_get : list (event Float) -> string -> Z -> get_outcome.
Variable cur_execute : list (event Float) -> statement Float -> bool.

Local Abbreviation save_currency_ := (save_currency strptime py_float cur_execute).
Local Abbreviation save_data_ :=
  (save_data fromstring strptime py_float cur_execute).
Local Abbreviation download_item_ :=
  (download_item fromstring strptime py_float requests_get cur_execute).
Local Abbreviation download_rates_ :=
  (download_rates fromstring strptime py_float requests_get cur_execute).

(** ** The monad *)

Lemma bind_inv {A B} (m : io Float A) (f : A -> io Float B) h r evs :
  bind m f h = (r, evs) ->
  (exists e, m h = (Raise e, evs) /\ r = Raise e) \/
  (exists a ev1 ev2,
      m h = (Ok a, ev1) /\ f a (h ++ ev1) = (r, ev2) /\ evs = ev1 ++ ev2).
Proof.
  unfold bind. destruct (m h) as [[a | e] ev1].
  - destruct (f a (h ++ ev1)) as [r' ev2] eqn:E. intros [= <- <-].
    right. by exists a, ev1, ev2.
  - intros [= <- <-]. left. by exists e.
Qed.

Lemma bind_ok {A B} (m : io Float A) (f : A -> io Float B) h a ev1 :
  m h = (Ok a, ev1) ->
  bind m f h = ((f a (h ++ ev1)).1, ev1 ++ (f a (h ++ ev1)).2).
Proof. unfold bind. intros ->. by destruct (f a (h ++ ev1)). Qed.

Lemma bind_raise {A B} (m : io Float A) (f : A -> io Float B) h e evs :
  m h = (Raise e, evs) -> bind m f h = (Raise e, evs).
Proof. unfold bind. by intros ->. Qed.

Lemma for_each_raise {A B} (f : B -> A -> io Float B) acc x rest h e evs :
  f acc x h = (Raise e, evs) -> for_each f acc (x :: rest) h = (Raise e, evs).
Proof. intros H. simpl. by apply bind_raise. Qed.

Lemma for_each_ok {A B} (f : B -> A -> io Float B) acc x rest h acc' ev1 :
  f acc x h = (Ok acc', ev1) ->
  for_each f acc (x :: rest) h =
  ((for_each f acc' rest (h ++ ev1)).1,
   ev1 ++ (for_each f acc' rest (h ++ ev1)).2).
Proof.
  intros H. simpl.
  by apply (bind_ok (f acc x) (fun acc' => for_each f acc' rest)).
Qed.


(** ** The loop body of [save_data] is its plan, carried out *)

Lemma bind_ret {A B} (a : A) (f : A -> io Float B) h :
  bind (ret a) f h = f a h.
Proof. unfold bind, ret. rewrite app_nil_r. by destruct (f a h). Qed.

Lemma bind_getitem {V B} (m : gmap string V) k (f : V -> io Float B) h :
  bind (getitem m k) f h
  = match m !! k with
    | Some v => f v h
    | None => (Raise (KeyError k), [])
    end.
Proof. unfold getitem. destruct (m !! k); [apply bind_ret | done]. Qed.

Lemma bind_to_float {B} v (f : Float -> io Float B) h :
  bind (to_float py_float v) f h
  = match v with
    | None => (Raise AttributeError, [])
    | Some s =>
        match py_float (replace_comma s) with
        | Some x => f x h
        | None => (Raise ValueError, [])
        end
    end.
Proof.
  unfold to_float. destruct v as [s|]; [|done].
  destruct (py_float _); [apply bind_ret | done].
Qed.

(** The two database calls and what follows them. *)
Lemma save_and_report {V} (q : statement Float) (m : gmap string V) k
    (line : V -> string) acc h :
  bind (execute cur_execute q)
    (fun _ => bind (execute cur_execute Commit)
       (fun _ => bind (getitem m k) (fun v => ret (acc +:+ line v)))) h
  = bind (execute cur_execute q)
      (fun _ => bind (execute cur_execute Commit)
         (fun _ => match match m !! k with
                         | Some v => Ok (line v)
                         | None => Raise (KeyError k)
                         end with
                   | Ok l => ret (acc +:+ l)
                   | Raise e => raise e
                   end)) h.
Proof.
  unfold bind, execute, getitem, ret, raise.
  destruct (cur_execute h q); [|done].
  destruct (cur_execute (h ++ _) Commit); [|done].
  by destruct (m !! k).
Qed.

Lemma save_currency_plan d root var_in_crncy_id crncy_list acc currency h :
  save_currency_ d root var_in_crncy_id crncy_list acc currency h
  = run_plan cur_execute var_in_crncy_id d acc
      (plan_of strptime py_float d root var_in_crncy_id crncy_list currency)
      h.
Proof.
  unfold save_currency, plan_of. destruct (var_in_crncy_id =? 2)%Z.
  - unfold save_currency_cbr, plan_cbr. rewrite bind_getitem.
    destruct (attrib currency !! "ID") as [id|]; [|done].
    destruct (crncy_list !! id) as [last|]; [|done].
    destruct (date_ltb last d); [|done].
    rewrite bind_getitem.
    destruct (attrib root !! "Date") as [declared|]; [|done].
    destruct (strptime declared) as [doc_date|]; [|done].
    destruct (decide (d = doc_date)); [|done].
    cbv zeta. rewrite bind_getitem.
    destruct (fill _ _ !! "Identificator"); [|done].
    rewrite bind_getitem. destruct (fill _ _ !! "Nominal"); [|done].
    rewrite bind_getitem.
    destruct (fill _ _ !! "Value") as [[value|]|]; [| done | done].
    rewrite bind_to_float. destruct (py_float _); [|done].
    unfold run_plan, py_str at 2.
    apply (save_and_report _ _ _
             (fun charcode => format_rate (py_str charcode) value _)).
  - unfold save_currency_nbu, plan_nbu. cbv zeta. rewrite bind_getitem.
    destruct (fill _ _ !! "r030") as [r030|]; [|done].
    destruct (r030 ≫= _) as [last|]; [|done].
    destruct (date_ltb last d); [|done].
    rewrite bind_getitem.
    destruct (fill _ _ !! "rate") as [[rate_text|]|]; [| done | done].
    rewrite bind_to_float. destruct (py_float _); [|done].
    unfold run_plan, py_str at 2.
    apply (save_and_report _ _ _
             (fun cc => format_rate (py_str cc) rate_text _)).
Qed.

Lemma run_plan_eq var_in_crncy_id d acc p h :
  run_plan cur_execute var_in_crncy_id d acc p h
  = match p with
    | PlanRaise e => (Raise e, [])
    | PlanDrop => (Ok acc, [])
    | PlanSave key nominal value line =>
        let q := SaveRate var_in_crncy_id key d nominal value in
        if cur_execute h q then
          if cur_execute (h ++ [EvExecute q]) Commit then
            (match line with
             | Ok l => Ok (acc +:+ l)
             | Raise e => Raise e
             end, [EvExecute q; EvExecute Commit])
          else (Raise DatabaseError, [EvExecute q; EvExecute Commit])
        else (Raise DatabaseError, [EvExecute q])
    end.
Proof.
  destruct p as [e | | key nominal value line]; try done.
  unfold run_plan, bind, execute, ret, raise. cbv zeta.
  destruct (cur_execute h _); [|done].
  destruct (cur_execute (h ++ _) Commit); [|done].
  by destruct line.
Qed.

(** ** The staleness filter *)

(** The plan of an entry with a currency code skips it exactly when the
    code has no older date in [crncy_list]. *)
Lemma plan_of_filter d root var_in_crncy_id crncy_list currency code :
  filter_key var_in_crncy_id currency = Some (Some code) ->
  (var_in_crncy_id = 2 ->
   exists declared,
     attrib root !! "Date" = Some declared /\ strptime declared = Some d) ->
  match plan_of strptime py_float d root var_in_crncy_id crncy_list currency
  with
  | PlanDrop => ~ newer crncy_list code d
  | _ => newer crncy_list code d
  end.
Proof.
  unfold filter_key, plan_of, newer, date_lt. intros Hkey Hdate.
  destruct (var_in_crncy_id =? 2)%Z eqn:Hid.
  - destruct Hdate as (declared & Hd & Hp); [lia|].
    unfold plan_cbr.
    destruct (attrib currency !! "ID") as [id|]; [|discriminate].
    injection Hkey as ->. rewrite Hd, Hp, decide_True by done. cbv zeta.
    destruct (crncy_list !! code) as [last|];
      [|by intros (last & [=] & _)].
    destruct (date_ltb last d) eqn:Hlt;
      [|intros (last' & [= <-] & Hlt'); congruence].
    destruct (fill _ _ !! "Identificator"); [|by exists last].
    destruct (fill _ _ !! "Nominal"); [|by exists last].
    destruct (fill _ _ !! "Value") as [[value|]|]; try by exists last.
    destruct (py_float _); by exists last.
  - unfold plan_nbu. cbv zeta. rewrite Hkey. cbn [mbind option_bind].
    destruct (crncy_list !! code) as [last|];
      [|by intros (last & [=] & _)].
    destruct (date_ltb last d) eqn:Hlt;
      [|intros (last' & [= <-] & Hlt'); congruence].
    destruct (fill _ _ !! "rate") as [[rate_text|]|]; try by exists last.
    destruct (py_float _); by exists last.
Qed.

(** C1.  An entry whose currency code is [code] (and, for the CBR feed,
    whose document declares the date that was asked for) is dropped, that
    is, the loop body returns the report text as it was and makes no call,
    if and only if [code] is not a key of [crncy_list] with a date strictly
    before [d]: so it is dropped when [code] is absent, and when [d] equals
    or precedes the last-known date.  When it is kept, either a missing or
    ill-formed field raises before any call, or the first call saves the
    rate for [d]. *)
Theorem staleness_filter (d : date) (root currency : element)
    (var_in_crncy_id : Z) (crncy_list : gmap string date)
    (email_body_date code : string) (h : list (event Float)) :
  filter_key var_in_crncy_id currency = Some (Some code) ->
  (var_in_crncy_id = 2 ->
   exists declared,
     attrib root !! "Date" = Some declared /\ strptime declared = Some d) ->
  let run := save_currency_ d root var_in_crncy_id crncy_list
                            email_body_date currency h in
  (run = (Ok email_body_date, []) <-> ~ newer crncy_list code d) /\
  (crncy_list !! code = None -> run = (Ok email_body_date, [])) /\
  (forall last, crncy_list !! code = Some last -> date_le d last ->
                run = (Ok email_body_date, [])) /\
  (newer crncy_list code d ->
   (exists e, run = (Raise e, [])) \/
   (exists key nominal value rest,
       run.2 = EvExecute (SaveRate var_in_crncy_id key d nominal value)
                 :: rest)).
Proof.
  intros Hkey Hdate run.
  pose proof (plan_of_filter d root var_in_crncy_id crncy_list currency code
                Hkey Hdate) as Hplan.
  assert (Hrun : run = run_plan cur_execute var_in_crncy_id d email_body_date
            (plan_of strptime py_float d root var_in_crncy_id crncy_list
                     currency) h) by apply save_currency_plan.
  rewrite run_plan_eq in Hrun. clearbody run.
  assert (Hkeep : newer crncy_list code d ->
   (exists e, run = (Raise e, [])) \/
   (exists key nominal value rest,
       run.2 = EvExecute (SaveRate var_in_crncy_id key d nominal value)
                 :: rest)).
  { intros Hn. destruct (plan_of _ _ _ _ _ _ _) as [e | | key nom v line].
    - left. by exists e.
    - done.
    - right. exists key, nom, v. cbv zeta in Hrun.
      repeat case_match; subst run; eauto. }
  assert (Hdrop : ~ newer crncy_list code d -> run = (Ok email_body_date, [])).
  { intros Hn. by destruct (plan_of _ _ _ _ _ _ _). }
  split_and!; [split|..]; try done.
  - intros Hr Hn.
    destruct (Hkeep Hn) as [(e & He) | (k & n & v & r & He)];
      rewrite Hr in He; discriminate.
  - intros Hnone. apply Hdrop, not_newer. by left.
  - intros last Hl Hle. apply Hdrop, not_newer. right. by exists last.
Qed.

(** ** Properties of every call of a computation *)

Section AllCalls.
Variable P : event Float -> Prop.

Lemma all_calls_ret {A} (a : A) : all_calls P (ret a).
Proof. intros h r evs [= <- <-]. constructor. Qed.

Lemma all_calls_raise {A} (e : exn) : all_calls P (@raise Float A e).
Proof. intros h r evs [= <- <-]. constructor. Qed.

Lemma all_calls_bind {A B} (m : io Float A) (f : A -> io Float B) :
  all_calls P m -> (forall a, all_calls P (f a)) -> all_calls P (bind m f).
Proof.
  intros Hm Hf h r evs H.
  apply bind_inv in H as [(e & H & _) | (a & ev1 & ev2 & H1 & H2 & ->)].
  - by eapply Hm.
  - apply Forall_app. split; [by eapply Hm | by eapply Hf].
Qed.

Lemma all_calls_for_each {A B} (f : B -> A -> io Float B) (l : list A) :
  (forall acc x, all_calls P (f acc x)) ->
  forall acc, all_calls P (for_each f acc l).
Proof.
  intros Hf. induction l as [| x rest IH]; intros acc; simpl.
  - apply all_calls_ret.
  - apply all_calls_bind; [apply Hf | apply IH].
Qed.

End AllCalls.

(** [save_data] only talks to the database, and what it saves is for the
    source and the date it was called with. *)
Lemma save_currency_calls d root var_in_crncy_id crncy_list acc currency :
  all_calls (saves_for var_in_crncy_id d)
    (save_currency_ d root var_in_crncy_id crncy_list acc currency).
Proof.
  intros h r evs. rewrite save_currency_plan, run_plan_eq.
  destruct (plan_of _ _ _ _ _ _ _) as [e | | key nom v line]; cbv zeta;
    repeat case_match; intros [= <- <-]; by repeat constructor.
Qed.

Lemma save_data_calls d body var_in_crncy_id crncy_list :
  all_calls (saves_for var_in_crncy_id d)
    (save_data_ d body var_in_crncy_id crncy_list).
Proof.
  unfold save_data. destruct (fromstring body); [|apply all_calls_raise].
  apply all_calls_for_each. intros acc x. apply save_currency_calls.
Qed.

Lemma saves_for_requested i d (evs : list (event Float)) :
  Forall (saves_for i d) evs -> requests evs = [].
Proof.
  unfold requests. induction 1 as [| x l Hx _ IH]; [done|].
  destruct x as [| [] |]; simpl in *; done.
Qed.


(** ** One work item *)

(** A turn of the loop of [download_rates], by the answer to its GET. *)
Lemma download_item_eq var_in_crncy_id crncy_list st item h :
  download_item_ var_in_crncy_id crncy_list st item h
  = match requests_get h item.2 30 with
    | GetResponse status body =>
        if is_http_error status then (Ok st, [EvGet item.2 30])
        else
          let r := save_data_ item.1 body var_in_crncy_id crncy_list
                              (h ++ [EvGet item.2 30]) in
          (match r.1 with
           | Ok text =>
               Ok (if decide (text = "") then st
                   else (true, st.2 +:+ date_section item.1 text))
           | Raise e => Raise e
           end, EvGet item.2 30 :: r.2)
    | GetOtherException => (Raise OtherException, [EvGet item.2 30])
    | _ => (Ok st, [EvGet item.2 30])
    end.
Proof.
  unfold download_item, bind, get, ret, raise.
  destruct (requests_get h item.2 30) as [| | | status body]; try done.
  destruct (is_http_error status); [done|]. cbv zeta.
  destruct (save_data_ _ _ _ _ _) as [[text|e] evs]; [|done].
  change ("" +:+ text) with text.
  case_decide; cbn [fst snd app]; rewrite ?app_nil_r;
    [by rewrite decide_True | by rewrite decide_False].
Qed.

(** A turn of the loop makes one GET, with timeout 30, and then only
    database calls for its own date. *)
Lemma download_item_calls var_in_crncy_id crncy_list st item h r evs :
  download_item_ var_in_crncy_id crncy_list st item h = (r, evs) ->
  exists evs',
    evs = EvGet item.2 30 :: evs' /\
    Forall (saves_for var_in_crncy_id item.1) evs'.
Proof.
  rewrite download_item_eq.
  destruct (requests_get h item.2 30) as [| | | status body];
    try (intros [= <- <-]; by eexists).
  destruct (is_http_error status); [intros [= <- <-]; by eexists|].
  cbv zeta. intros [= <- <-]. eexists. split; [done|].
  eapply save_data_calls. apply surjective_pairing.
Qed.

(** A failed fetch leaves the state as it was. *)
Lemma download_item_skip var_in_crncy_id crncy_list st item h :
  fetch_failed (requests_get h item.2 30) ->
  download_item_ var_in_crncy_id crncy_list st item h
  = (Ok st, [EvGet item.2 30]).
Proof.
  rewrite download_item_eq. unfold fetch_failed.
  destruct (requests_get h item.2 30) as [| | | status body]; try done.
  by intros ->.
Qed.

(** What [save_data] raises is raised by the turn of the loop. *)
Lemma download_item_raise var_in_crncy_id crncy_list st item h
    status body e evs :
  requests_get h item.2 30 = GetResponse status body ->
  is_http_error status = false ->
  save_data_ item.1 body var_in_crncy_id crncy_list (h ++ [EvGet item.2 30])
  = (Raise e, evs) ->
  download_item_ var_in_crncy_id crncy_list st item h
  = (Raise e, EvGet item.2 30 :: evs).
Proof.
  intros Hget Herr Hsave. by rewrite download_item_eq, Hget, Herr, Hsave.
Qed.


(** ** Failed fetches *)

(** The GETs of the loop are those of its work items, one each and in
    order, with timeout 30; all of them, when the loop returns. *)
Lemma requests_get_cons url timeout (evs : list (event Float)) :
  requests (EvGet url timeout :: evs) = (url, timeout) :: requests evs.
Proof. done. Qed.

Lemma requests_app (evs1 evs2 : list (event Float)) :
  requests (evs1 ++ evs2) = requests evs1 ++ requests evs2.
Proof. apply omap_app. Qed.

Lemma download_loop_requests var_in_crncy_id crncy_list url_list st h r evs :
  for_each (download_item_ var_in_crncy_id crncy_list) st url_list h
  = (r, evs) ->
  requests evs `prefix_of` (fun item => (item.2, 30)) <$> url_list /\
  (forall res, r = Ok res ->
               requests evs = (fun item => (item.2, 30)) <$> url_list).
Proof.
  revert st h r evs.
  induction url_list as [| item rest IH]; intros st h r evs; simpl.
  - intros [= <- <-]. split; [apply prefix_nil | done].
  - intros H.
    apply bind_inv in H as [(e & H & ->) | (st' & ev1 & ev2 & H1 & H2 & ->)].
    + apply download_item_calls in H as (evs' & -> & Hall).
      apply saves_for_requested in Hall.
      rewrite requests_get_cons, Hall.
      split; [apply prefix_cons, prefix_nil | done].
    + apply download_item_calls in H1 as (evs' & -> & Hall).
      apply IH in H2 as [Hpre Hok]. apply saves_for_requested in Hall.
      rewrite requests_app, requests_get_cons, Hall.
      cbn [app fmap list_fmap].
      split; [by apply prefix_cons|].
      intros res ->. by rewrite (Hok res).
Qed.

(** C4.  When the fetch of a work item fails (timeout, transport error, or
    a 4xx/5xx status), the loop of [download_rates] makes that one GET and
    goes on with the remaining items from the state it had: the flag and
    the report text are unchanged and no database call is made for the
    item.  In every run the GETs are those of the work items, one each and
    in order (no URL is tried again), each with timeout 30. *)
Theorem failed_fetch_skips_item (var_in_crncy_id : Z)
    (crncy_list : gmap string date) (st : bool * string) (d : date)
    (url : string) (rest : list (date * string)) (h : list (event Float)) :
  fetch_failed (requests_get h url 30) ->
  let loop := for_each (download_item_ var_in_crncy_id crncy_list) in
  loop st ((d, url) :: rest) h
  = ((loop st rest (h ++ [EvGet url 30])).1,
     EvGet url 30 :: (loop st rest (h ++ [EvGet url 30])).2) /\
  (forall url_list h' r evs,
      download_rates_ url_list crncy_list var_in_crncy_id h' = (r, evs) ->
      requests evs `prefix_of` (fun item => (item.2, 30)) <$> url_list /\
      (forall res, r = Ok res ->
                   requests evs = (fun item => (item.2, 30)) <$> url_list)).
Proof.
  intros Hfail loop. split.
  - unfold loop.
    apply (for_each_ok _ st (d, url) rest h st [EvGet url 30]).
    by apply (download_item_skip _ _ st (d, url) h).
  - intros url_list h' r evs. apply download_loop_requests.
Qed.


(** ** The report text *)

Lemma append_cons (x : ascii) (a b : string) :
  String x a +:+ b = String x (a +:+ b).
Proof. reflexivity. Qed.

Lemma append_assoc (a b c : string) : (a +:+ b) +:+ c = a +:+ (b +:+ c).
Proof.
  induction a as [| x a IH]; [done|]. rewrite !append_cons. by f_equal.
Qed.

Lemma append_nil_r (a : string) : a +:+ "" = a.
Proof.
  induction a as [| x a IH]; [done|]. rewrite append_cons. by f_equal.
Qed.

Lemma append_eq_nil (a b : string) : a +:+ b = "" -> a = "" /\ b = "".
Proof. destruct a; [done|]. rewrite append_cons. discriminate. Qed.

Lemma format_rate_nonempty (a b c : string) : format_rate a b c <> "".
Proof.
  unfold format_rate. intros H. apply append_eq_nil in H as [_ H].
  discriminate.
Qed.

Lemma report_lines_nil lines : report_lines lines = "" -> lines = [].
Proof.
  destruct lines as [| l lines]; [done|]. cbn [report_lines foldr]. intros H.
  apply append_eq_nil in H as [H _]. by apply format_rate_nonempty in H.
Qed.

Lemma saved_pairs_app (evs1 evs2 : list (event Float)) :
  saved_pairs (evs1 ++ evs2) = saved_pairs evs1 ++ saved_pairs evs2.
Proof. apply omap_app. Qed.

(** The line a plan appends: three fields, the last one [1] for the NBU
    feed. *)
Lemma plan_of_line d root var_in_crncy_id crncy_list currency
    key nominal value l :
  plan_of strptime py_float d root var_in_crncy_id crncy_list currency
  = PlanSave key nominal value (Ok l) ->
  exists a b c,
    l = format_rate a b c /\ (var_in_crncy_id <> 2 -> c = "1").
Proof.
  unfold plan_of. destruct (var_in_crncy_id =? 2)%Z eqn:Hid.
  - unfold plan_cbr. intros H. repeat case_match; try discriminate.
    injection H as <- <- <- <-. do 3 eexists. split; [done | lia].
  - unfold plan_nbu. intros H. cbv zeta in H.
    repeat case_match; try discriminate.
    injection H as <- <- <- <-. by do 3 eexists.
Qed.

(** What a turn of the loop of [save_data] that returns has done: nothing,
    or one save, one commit and one line. *)
Lemma save_currency_ok d root var_in_crncy_id crncy_list acc currency h
    text evs :
  save_currency_ d root var_in_crncy_id crncy_list acc currency h
  = (Ok text, evs) ->
  (text = acc /\ evs = []) \/
  (exists a b c key,
      text = acc +:+ format_rate a b c /\
      saved_pairs evs = [(key, d)] /\
      (var_in_crncy_id <> 2 -> c = "1")).
Proof.
  rewrite save_currency_plan, run_plan_eq.
  destruct (plan_of _ _ _ _ _ _ _) as [e | | key nom v line] eqn:Hplan;
    [discriminate | intros [= <- <-]; by left |].
  cbv zeta. repeat case_match; try discriminate. intros [= <- <-].
  apply plan_of_line in Hplan as (f1 & f2 & f3 & -> & Hc).
  right. by exists f1, f2, f3, key.
Qed.

Lemma save_loop_ok d root var_in_crncy_id crncy_list entries acc h
    text evs :
  for_each (save_currency_ d root var_in_crncy_id crncy_list) acc entries h
  = (Ok text, evs) ->
  exists lines,
    text = acc +:+ report_lines lines /\
    length lines = length (saved_pairs evs) /\
    (var_in_crncy_id <> 2 -> Forall (fun l => l.2 = "1") lines).
Proof.
  revert acc h text evs.
  induction entries as [| currency rest IH]; intros acc h text evs; simpl.
  - intros [= <- <-]. exists []. by rewrite append_nil_r.
  - intros H.
    apply bind_inv in H as [(e & _ & [=]) | (t & ev1 & ev2 & H1 & H2 & ->)].
    apply IH in H2 as (lines & -> & Hlen & Hone).
    rewrite saved_pairs_app, length_app, <- Hlen.
    apply save_currency_ok in H1
        as [[-> ->] | (a & b & c & key & -> & -> & Hc)].
    + by exists lines.
    + exists ((a, b, c) :: lines). split_and!.
      * by rewrite append_assoc.
      * done.
      * intros Hid. constructor; [by apply Hc | by apply Hone].
Qed.

Lemma save_data_ok d body var_in_crncy_id crncy_list h text evs :
  save_data_ d body var_in_crncy_id crncy_list h = (Ok text, evs) ->
  exists lines,
    text = report_lines lines /\
    length lines = length (saved_pairs evs) /\
    (var_in_crncy_id <> 2 -> Forall (fun l => l.2 = "1") lines).
Proof.
  unfold save_data. destruct (fromstring body) as [root|]; [|discriminate].
  apply save_loop_ok.
Qed.

(** The text [save_data] returns is empty exactly when it saved nothing. *)
Lemma save_data_empty d body var_in_crncy_id crncy_list h text evs :
  save_data_ d body var_in_crncy_id crncy_list h = (Ok text, evs) ->
  text = "" <-> saved_pairs evs = [].
Proof.
  intros H. apply save_data_ok in H as (lines & -> & Hlen & _). split.
  - intros Hl. apply report_lines_nil in Hl as ->.
    by apply nil_length_inv.
  - intros Hs. rewrite Hs in Hlen. by apply nil_length_inv in Hlen as ->.
Qed.


(** ** The NBU feed: nominal 1 *)

Lemma all_calls_download_rates (P : event Float -> Prop)
    url_list crncy_list var_in_crncy_id :
  (forall url, P (EvGet url 30)) ->
  (forall d body,
      all_calls P (save_data_ d body var_in_crncy_id crncy_list)) ->
  all_calls P (download_rates_ url_list crncy_list var_in_crncy_id).
Proof.
  intros Hget Hsave. unfold download_rates.
  apply all_calls_for_each. intros st item h r evs.
  rewrite download_item_eq.
  repeat case_match; cbv zeta; intros [= <- <-]; constructor; try done.
  eapply Hsave. apply surjective_pairing.
Qed.





(** ** The report of a source *)

Lemma saved_pairs_get_cons url timeout (evs : list (event Float)) :
  saved_pairs (EvGet url timeout :: evs) = saved_pairs evs.
Proof. done. Qed.

(** A turn of the loop that returns either leaves the state and saves
    nothing, or saves something, sets the flag and appends a section. *)
Lemma download_item_state var_in_crncy_id crncy_list st item h st' evs :
  download_item_ var_in_crncy_id crncy_list st item h = (Ok st', evs) ->
  (st' = st /\ saved_pairs evs = []) \/
  (exists text,
      text <> "" /\ st' = (true, st.2 +:+ date_section item.1 text) /\
      saved_pairs evs <> []).
Proof.
  rewrite download_item_eq.
  destruct (requests_get h item.2 30) as [| | | status body];
    try (intros [= <- <-]; by left).
  destruct (is_http_error status); [intros [= <- <-]; by left|].
  cbv zeta.
  destruct (save_data_ _ _ _ _ _) as [[text|e] ev] eqn:Hsave;
    [|discriminate].
  apply save_data_empty in Hsave. cbn [fst snd].
  intros [= <- <-]. rewrite saved_pairs_get_cons.
  destruct (decide (text = "")) as [Ht | Ht].
  - left. by apply Hsave in Ht.
  - right. exists text. by rewrite <- Hsave.
Qed.

Lemma date_section_nonempty d text : date_section d text <> "".
Proof. unfold date_section. by rewrite append_cons. Qed.

Lemma download_loop_state var_in_crncy_id crncy_list url_list st h st' evs :
  for_each (download_item_ var_in_crncy_id crncy_list) st url_list h
  = (Ok st', evs) ->
  exists rest,
    st'.2 = st.2 +:+ rest /\
    (saved_pairs evs = [] -> st' = st) /\
    (saved_pairs evs <> [] -> st'.1 = true /\ rest <> "").
Proof.
  revert st h st' evs.
  induction url_list as [| item items IH]; intros st h st' evs; simpl.
  - intros [= <- <-]. exists "". by rewrite append_nil_r.
  - intros H.
    apply bind_inv in H as [(e & _ & [=]) | (s & ev1 & ev2 & H1 & H2 & ->)].
    apply IH in H2 as (rest & Hbody & Hnone & Hsome).
    rewrite saved_pairs_app.
    apply download_item_state in H1
        as [[-> Hs] | (text & Ht & -> & Hs)].
    + rewrite Hs. by exists rest.
    + exists (date_section item.1 text +:+ rest). split_and!.
      * cbn [snd] in Hbody. by rewrite Hbody, append_assoc.
      * intros Happ. by apply app_eq_nil in Happ as [? _].
      * intros _. split.
        -- destruct (decide (saved_pairs ev2 = [])) as [He | He];
             [by rewrite (Hnone He) | by apply Hsome].
        -- intros Hr. apply append_eq_nil in Hr as [Hr _].
           by apply date_section_nonempty in Hr.
Qed.

Lemma header_nonempty var_in_crncy_id : header var_in_crncy_id <> "".
Proof. unfold header. by destruct (var_in_crncy_id =? 2)%Z. Qed.

(** C9.  The report text of a source is one of two fixed, non-empty
    headers, chosen by the source identifier, followed by the sections of
    the run.  A run that returns having saved nothing returns the flag
    [False] and a text that is exactly the header, hence not empty; that
    [form_email_body] gives the empty string for two such sources comes
    from the flags, whatever the texts. *)
Theorem report_starts_with_header (url_list : list (date * string))
    (crncy_list : gmap string date) (var_in_crncy_id : Z)
    (h : list (event Float)) (has_result_to_send : bool)
    (email_body : string) (evs : list (event Float)) :
  download_rates_ url_list crncy_list var_in_crncy_id h
  = (Ok (has_result_to_send, email_body), evs) ->
  (header var_in_crncy_id
   = if decide (var_in_crncy_id = 2)
     then "Downloaded exchange rates from CBR:" +:+ nl +:+ nl
     else "Downloaded exchange rates from NBU :" +:+ nl +:+ nl) /\
  (exists sections, email_body = header var_in_crncy_id +:+ sections) /\
  email_body <> "" /\
  (saved_pairs evs = [] ->
   has_result_to_send = false /\ email_body = header var_in_crncy_id) /\
  (forall body_cbr body_nbu,
      form_email_body false body_cbr false body_nbu = "").
Proof.
  intros H. apply download_loop_state in H as (rest & Hbody & Hnone & Hsome).
  cbn [fst snd] in *. split_and!.
  - unfold header. case_decide as Hid.
    + by rewrite Hid.
    + by apply Z.eqb_neq in Hid as ->.
  - by exists rest.
  - rewrite Hbody. intros He. apply append_eq_nil in He as [He _].
    by apply header_nonempty in He.
  - intros Hs. by injection (Hnone Hs) as -> ->.
  - done.
Qed.


(** ** The email *)

Lemma notify_eq email_body h :
  notify email_body h
  = (Ok tt, if decide (email_body = "") then []
            else [EvSendEmail email_body] : list (event Float)).
Proof. unfold notify. by case_decide. Qed.

Lemma main_eq url_list_cbr crncy_list_cbr url_list_nbu crncy_list_nbu h :
  main fromstring strptime py_float requests_get cur_execute
       url_list_cbr crncy_list_cbr url_list_nbu crncy_list_nbu h
  = match download_rates_ url_list_cbr crncy_list_cbr ID_CBR h with
    | (Raise e, ev1) => (Raise e, ev1)
    | (Ok cbr, ev1) =>
        match download_rates_ url_list_nbu crncy_list_nbu ID_NBU (h ++ ev1)
        with
        | (Raise e, ev2) => (Raise e, ev1 ++ ev2)
        | (Ok nbu, ev2) =>
            let email_body := form_email_body cbr.1 cbr.2 nbu.1 nbu.2 in
            (Ok tt,
             ev1 ++ ev2 ++
               if decide (email_body = "") then []
               else [EvSendEmail email_body])
        end
    end.
Proof.
  unfold main, bind.
  destruct (download_rates_ url_list_cbr _ _ h) as [[cbr|e] ev1]; [|done].
  destruct (download_rates_ url_list_nbu _ _ _) as [[nbu|e] ev2]; [|done].
  by rewrite notify_eq.
Qed.

(** C6.  [form_email_body] puts together, CBR first and NBU second, the
    texts of the sources whose flag is set, with ["\n\n"] between the two
    when both are: nothing when neither flag is set, the text alone (with
    nothing before it) when one is.  The main block sends the email exactly
    when that body is not empty. *)
Theorem report_aggregation (email_body_cbr email_body_nbu : string)
    (url_list_cbr url_list_nbu : list (date * string))
    (crncy_list_cbr crncy_list_nbu : gmap string date)
    (h : list (event Float)) :
  form_email_body false email_body_cbr false email_body_nbu = "" /\
  form_email_body true email_body_cbr false email_body_nbu
  = email_body_cbr /\
  form_email_body false email_body_cbr true email_body_nbu
  = email_body_nbu /\
  form_email_body true email_body_cbr true email_body_nbu
  = email_body_cbr +:+ nl +:+ nl +:+ email_body_nbu /\
  main fromstring strptime py_float requests_get cur_execute
       url_list_cbr crncy_list_cbr url_list_nbu crncy_list_nbu h
  = match download_rates_ url_list_cbr crncy_list_cbr ID_CBR h with
    | (Raise e, ev1) => (Raise e, ev1)
    | (Ok cbr, ev1) =>
        match download_rates_ url_list_nbu crncy_list_nbu ID_NBU (h ++ ev1)
        with
        | (Raise e, ev2) => (Raise e, ev1 ++ ev2)
        | (Ok nbu, ev2) =>
            let email_body := form_email_body cbr.1 cbr.2 nbu.1 nbu.2 in
            (Ok tt,
             ev1 ++ ev2 ++
               if decide (email_body = "") then []
               else [EvSendEmail email_body])
        end
    end.
Proof. split_and!; try done. apply main_eq. Qed.

(** ** Entries that are not saved *)

(** When every entry is skipped or raises an exception in [E], the loop of
    [save_data] makes no call, and returns the text it started from or
    raises an exception in [E]. *)
Lemma save_loop_no_save (E : exn -> Prop) d root var_in_crncy_id crncy_list
    entries acc h r evs :
  Forall (fun currency =>
            match plan_of strptime py_float d root var_in_crncy_id
                          crncy_list currency with
            | PlanDrop => True
            | PlanRaise e => E e
            | PlanSave _ _ _ _ => False
            end) entries ->
  for_each (save_currency_ d root var_in_crncy_id crncy_list) acc entries h
  = (r, evs) ->
  evs = [] /\ (r = Ok acc \/ exists e, r = Raise e /\ E e).
Proof.
  intros Hall. revert h r evs.
  induction Hall as [| currency rest Hp _ IH]; intros h r evs; simpl.
  - intros [= <- <-]. auto.
  - intros H. unfold bind in H.
    rewrite save_currency_plan, run_plan_eq in H.
    destruct (plan_of _ _ _ _ _ _ _) as [e | | key nom v line]; [| |done].
    + injection H as <- <-. eauto.
    + destruct (for_each _ _ _ _) as [r' ev'] eqn:Hloop.
      injection H as <- <-. by apply IH in Hloop.
Qed.

(** The CBR plan saves only when the document declares the date asked
    for. *)
Lemma plan_cbr_save d root crncy_list currency key nominal value line :
  plan_cbr strptime py_float d root crncy_list currency
  = PlanSave key nominal value line ->
  exists declared,
    attrib root !! "Date" = Some declared /\ strptime declared = Some d.
Proof.
  unfold plan_cbr. intros H.
  destruct (attrib currency !! "ID") as [id|]; [|discriminate].
  destruct (crncy_list !! id) as [last|]; [|discriminate].
  destruct (date_ltb last d); [|discriminate].
  destruct (attrib root !! "Date") as [declared|] eqn:Hd; [|discriminate].
  destruct (strptime declared) as [doc_date|] eqn:Hp; [|discriminate].
  destruct (decide (d = doc_date)) as [<- | Hne]; [|discriminate].
  by exists declared.
Qed.

Lemma plan_cbr_other_date d root crncy_list currency declared doc_date :
  attrib root !! "Date" = Some declared ->
  strptime declared = Some doc_date ->
  doc_date <> d ->
  match plan_cbr strptime py_float d root crncy_list currency with
  | PlanDrop => True
  | PlanRaise e => e = KeyError "ID"
  | PlanSave _ _ _ _ => False
  end.
Proof.
  intros Hd Hp Hne. unfold plan_cbr. rewrite Hd, Hp.
  destruct (attrib currency !! "ID") as [id|]; [|done].
  destruct (crncy_list !! id) as [last|]; [|done].
  destruct (date_ltb last d); [|done].
  by rewrite decide_False.
Qed.

(** C2.  For the CBR feed, [save_data] makes a database call or returns a
    non-empty text only if the root's [Date] attribute, read as
    day.month.year, is the date the caller asked for.  When the document
    declares another date, no call is made and no line is produced,
    whatever the entries contain: the text returned is empty (or an entry
    without [ID] attribute raises [KeyError]). *)
Theorem cbr_requires_declared_date (d : date) (body : string)
    (root : element) (crncy_list : gmap string date)
    (h : list (event Float)) (r : result string) (evs : list (event Float)) :
  fromstring body = Some root ->
  save_data_ d body 2 crncy_list h = (r, evs) ->
  ((evs <> [] \/ exists text, r = Ok text /\ text <> "") ->
   exists declared,
     attrib root !! "Date" = Some declared /\ strptime declared = Some d) /\
  (forall declared doc_date,
      attrib root !! "Date" = Some declared ->
      strptime declared = Some doc_date ->
      doc_date <> d ->
      evs = [] /\ (r = Ok "" \/ r = Raise (KeyError "ID"))).
Proof.
  intros Hroot. unfold save_data. rewrite Hroot. intros Hrun. split.
  - intros Hsome.
    assert (Hdec : (exists declared, attrib root !! "Date" = Some declared /\
                                     strptime declared = Some d) \/
                   ~ (exists declared, attrib root !! "Date" = Some declared /\
                                       strptime declared = Some d)).
    { destruct (attrib root !! "Date") as [declared|];
        [|right; by intros (? & [=] & _)].
      destruct (strptime declared) as [doc_date|] eqn:Hp;
        [|right; intros (? & [= <-] & ?); congruence].
      destruct (decide (doc_date = d)) as [-> | Hne]; [left; eauto|].
      right. intros (? & [= <-] & ?). congruence. }
    destruct Hdec as [Hyes | Hno]; [done|]. exfalso.
    eapply (save_loop_no_save (fun _ => True)) in Hrun as [-> Hr].
    + destruct Hsome as [? | (text & -> & Ht)]; [done|].
      destruct Hr as [[= Heq] | (e & [=] & _)]. congruence.
    + apply Forall_forall. intros currency _. unfold plan_of.
      cbn [Z.eqb Pos.eqb].
      destruct (plan_cbr _ _ _ _ _ _) as [| | k n v l] eqn:Hplan; try done.
      by apply plan_cbr_save in Hplan.
  - intros declared doc_date Hd Hp Hne.
    eapply (save_loop_no_save (fun e => e = KeyError "ID")) in Hrun
        as [-> Hr].
    + split; [done|]. destruct Hr as [-> | (e & -> & ->)]; auto.
    + apply Forall_forall. intros currency _. unfold plan_of.
      cbn [Z.eqb Pos.eqb].
      by apply (plan_cbr_other_date d root crncy_list currency declared
                  doc_date).
Qed.


(** ** Runs without new data *)

(** When no last-known date is before [d], the plan of an entry is to
    skip it, or to raise for the missing currency code. *)
Lemma plan_of_no_new_data d root var_in_crncy_id crncy_list currency :
  (forall code last,
      filter_key var_in_crncy_id currency = Some (Some code) ->
      (var_in_crncy_id = 2 ->
       exists declared,
         attrib root !! "Date" = Some declared /\
         strptime declared = Some d) ->
      crncy_list !! code = Some last -> date_le d last) ->
  match plan_of strptime py_float d root var_in_crncy_id crncy_list currency
  with
  | PlanDrop => True
  | PlanRaise e =>
      filter_key var_in_crncy_id currency = None \/
      ~ declares_date strptime var_in_crncy_id root
  | PlanSave _ _ _ _ => False
  end.
Proof.
  intros Hle. unfold plan_of, filter_key in *.
  destruct (var_in_crncy_id =? 2)%Z eqn:Hid.
  - apply Z.eqb_eq in Hid. unfold plan_cbr.
    destruct (attrib currency !! "ID") as [id|]; [|by left].
    destruct (crncy_list !! id) as [last|] eqn:Hl; [|done].
    destruct (date_ltb last d) eqn:Hlt; [|done].
    destruct (attrib root !! "Date") as [declared|] eqn:Hd.
    2: { right. intros Hdate.
         destruct (Hdate Hid) as (? & ? & ? & _). congruence. }
    destruct (strptime declared) as [doc_date|] eqn:Hp.
    2: { right. intros Hdate.
         destruct (Hdate Hid) as (? & ? & ? & ?). congruence. }
    destruct (decide (d = doc_date)) as [<- | Hne]; [|done].
    assert (Hfalse : date_ltb last d = false).
    { apply date_ltb_false, (Hle id last); [done | | done].
      intros _. by exists declared. }
    congruence.
  - apply Z.eqb_neq in Hid. unfold plan_nbu. cbv zeta.
    destruct (fill ∅ currency !! "r030") as [[code|]|];
      [| done | by left].
    cbn [mbind option_bind].
    destruct (crncy_list !! code) as [last|] eqn:Hl; [|done].
    destruct (date_ltb last d) eqn:Hlt; [|done].
    assert (Hfalse : date_ltb last d = false)
      by by apply date_ltb_false, (Hle code last).
    congruence.
Qed.

Lemma save_data_no_new_data d body var_in_crncy_id crncy_list h r evs :
  (forall root currency code last,
      fromstring body = Some root ->
      observation strptime var_in_crncy_id d root currency code ->
      crncy_list !! code = Some last -> date_le d last) ->
  save_data_ d body var_in_crncy_id crncy_list h = (r, evs) ->
  evs = [] /\
  (forall text, r = Ok text -> text = "") /\
  (forall root, fromstring body = Some root ->
                has_codes var_in_crncy_id root ->
                declares_date strptime var_in_crncy_id root -> r = Ok "").
Proof.
  intros Hle. unfold save_data.
  destruct (fromstring body) as [root|]; [|
    intros [= <- <-]; split_and!; [done | intros ? [=] | intros ? [=]]].
  assert (Hplan : forall currency,
             currency ∈ children root ->
             match plan_of strptime py_float d root var_in_crncy_id
                           crncy_list currency with
             | PlanDrop => True
             | PlanRaise e =>
                 filter_key var_in_crncy_id currency = None \/
                 ~ declares_date strptime var_in_crncy_id root
             | PlanSave _ _ _ _ => False
             end).
  { intros currency Hin. apply plan_of_no_new_data.
    intros code last Hkey Hdate. by apply (Hle root currency). }
  intros Hrun. split_and!.
  - eapply (save_loop_no_save (fun _ => True)) in Hrun as [-> _]; [done|].
    apply Forall_forall. intros currency Hin.
    specialize (Hplan currency Hin). by destruct (plan_of _ _ _ _ _ _ _).
  - intros text ->.
    eapply (save_loop_no_save (fun _ => True)) in Hrun as [_ Hr].
    + destruct Hr as [[= ->] | (e & [=] & _)]. done.
    + apply Forall_forall. intros currency Hin.
      specialize (Hplan currency Hin). by destruct (plan_of _ _ _ _ _ _ _).
  - intros ? [= <-] Hcodes Hdate.
    eapply (save_loop_no_save (fun _ => False)) in Hrun as [_ Hr].
    + by destruct Hr as [-> | (e & _ & [])].
    + apply Forall_forall. intros currency Hin.
      specialize (Hplan currency Hin).
      unfold has_codes in Hcodes. rewrite Forall_forall in Hcodes.
      destruct (Hcodes currency Hin) as [k Hk].
      destruct (plan_of _ _ _ _ _ _ _); [|done|done].
      destruct Hplan as [Hnone | Hnot]; [congruence | by apply Hnot].
Qed.

Lemma no_new_data_cons var_in_crncy_id item items crncy_list :
  no_new_data fromstring strptime requests_get var_in_crncy_id
              (item :: items) crncy_list ->
  no_new_data fromstring strptime requests_get var_in_crncy_id
              items crncy_list.
Proof.
  intros Hnew d url h status body root currency code last Hin.
  apply (Hnew d url). by apply list_elem_of_further.
Qed.

Lemma download_loop_no_new_data var_in_crncy_id crncy_list url_list st h
    r evs :
  no_new_data fromstring strptime requests_get var_in_crncy_id
              url_list crncy_list ->
  for_each (download_item_ var_in_crncy_id crncy_list) st url_list h
  = (r, evs) ->
  Forall is_get evs /\
  (forall st', r = Ok st' -> st' = st) /\
  ((forall h' d url,
       (d, url) ∈ url_list -> requests_get h' url 30 <> GetOtherException) ->
   (forall h' d url status body,
       (d, url) ∈ url_list ->
       requests_get h' url 30 = GetResponse status body ->
       is_http_error status = false ->
       exists root,
         fromstring body = Some root /\ has_codes var_in_crncy_id root /\
         declares_date strptime var_in_crncy_id root) ->
   r = Ok st).
Proof.
  revert st h r evs.
  induction url_list as [| item items IH]; intros st h r evs Hnew; simpl.
  - intros [= <- <-]. split_and!; [constructor | by intros ? [=] | done].
  - pose proof (no_new_data_cons _ _ _ _ Hnew) as Hnew'.
    assert (Hhere : (item.1, item.2) ∈ item :: items)
      by (destruct item; apply list_elem_of_here).
    assert (Hrest : forall st1 h1 r1 ev1,
               for_each (download_item_ var_in_crncy_id crncy_list)
                        st1 items h1 = (r1, ev1) ->
               Forall is_get ev1 /\
               (forall st2, r1 = Ok st2 -> st2 = st1) /\
               ((forall h' d url,
                    (d, url) ∈ item :: items ->
                    requests_get h' url 30 <> GetOtherException) ->
                (forall h' d url status body,
                    (d, url) ∈ item :: items ->
                    requests_get h' url 30 = GetResponse status body ->
                    is_http_error status = false ->
                    exists root,
                      fromstring body = Some root /\
                      has_codes var_in_crncy_id root /\
                      declares_date strptime var_in_crncy_id root) ->
                r1 = Ok st1)).
    { intros st1 h1 r1 ev1 Hloop.
      apply IH in Hloop as (Hg & Hok & Hsh); [|done].
      split_and!; [done | done |].
      intros Hget' Hshape. apply Hsh.
      - intros h2 d url Hin. apply (Hget' h2 d url).
        by apply list_elem_of_further.
      - intros h2 d url status body Hin. apply (Hshape h2 d url).
        by apply list_elem_of_further. }
    clear IH. unfold bind. rewrite download_item_eq.
    destruct (requests_get h item.2 30) as [| | | status body] eqn:Hget.
    1,2: destruct (for_each _ _ _ _) as [r' ev'] eqn:Hloop;
         intros [= <- <-]; apply Hrest in Hloop as (Hg & Hok & Hsh);
         split_and!; [by constructor | done | done].
    { intros [= <- <-]. split_and!.
      - by repeat constructor.
      - intros ? [=].
      - intros Hget' _. by apply (Hget' h item.1 item.2 Hhere) in Hget. }
    destruct (is_http_error status) eqn:Herr.
    { destruct (for_each _ _ _ _) as [r' ev'] eqn:Hloop.
      intros [= <- <-]. apply Hrest in Hloop as (Hg & Hok & Hsh).
      split_and!; [by constructor | done | done]. }
    cbv zeta.
    destruct (save_data_ _ _ _ _ _) as [r1 ev1] eqn:Hsave.
    apply save_data_no_new_data in Hsave as (-> & Htext & Hcodes).
    2: { intros root currency code last Hroot.
         by apply (Hnew item.1 item.2 h status body root currency code
                        last). }
    cbn [fst snd]. destruct r1 as [text|e].
    + rewrite (Htext text eq_refl), decide_True by done.
      destruct (for_each _ _ _ _) as [r' ev'] eqn:Hloop.
      intros [= <- <-]. apply Hrest in Hloop as (Hg & Hok & Hsh).
      split_and!; [by constructor | done | done].
    + intros [= <- <-]. split_and!.
      * by repeat constructor.
      * intros ? [=].
      * intros _ Hshape.
        destruct (Hshape h item.1 item.2 status body Hhere Hget Herr)
          as (root & Hr & Hc & Hd).
        by specialize (Hcodes root Hr Hc Hd).
Qed.

Lemma main_no_new_data url_list_cbr crncy_list_cbr url_list_nbu
    crncy_list_nbu h r evs :
  no_new_data fromstring strptime requests_get ID_CBR
              url_list_cbr crncy_list_cbr ->
  no_new_data fromstring strptime requests_get ID_NBU
              url_list_nbu crncy_list_nbu ->
  main fromstring strptime py_float requests_get cur_execute
       url_list_cbr crncy_list_cbr url_list_nbu crncy_list_nbu h
  = (r, evs) ->
  Forall is_get evs.
Proof.
  intros Hcbr Hnbu. rewrite main_eq. unfold download_rates.
  destruct (for_each _ _ url_list_cbr h) as [r1 ev1] eqn:H1.
  apply download_loop_no_new_data in H1 as (Hg1 & Hok1 & _); [|done].
  destruct r1 as [cbr|e]; [|by intros [= <- <-]].
  destruct (for_each _ _ url_list_nbu _) as [r2 ev2] eqn:H2.
  apply download_loop_no_new_data in H2 as (Hg2 & Hok2 & _); [|done].
  destruct r2 as [nbu|e]; [|intros [= <- <-]; by apply Forall_app].
  rewrite (Hok1 cbr eq_refl), (Hok2 nbu eq_refl). cbv zeta.
  cbn [fst snd]. unfold form_email_body. cbn [andb negb].
  rewrite decide_True by done.
  intros [= <- <-]. rewrite app_nil_r. by apply Forall_app.
Qed.

(** The hypothesis in the words of the specification, and a work list with
    no date after a last-known date, are cases of [no_new_data]. *)
Lemma every_currency_no_new_data var_in_crncy_id url_list crncy_list :
  (forall d url h status body root currency code,
      (d, url) ∈ url_list ->
      requests_get h url 30 = GetResponse status body ->
      is_http_error status = false ->
      fromstring body = Some root ->
      observation strptime var_in_crncy_id d root currency code ->
      forall code' last, crncy_list !! code' = Some last -> date_le d last) ->
  no_new_data fromstring strptime requests_get var_in_crncy_id
              url_list crncy_list.
Proof.
  intros Hall d url h status body root currency code last Hin Hget Herr
         Hroot Hobs.
  by apply (Hall d url h status body root currency code).
Qed.

Lemma up_to_date_no_new_data var_in_crncy_id url_list crncy_list :
  up_to_date url_list crncy_list ->
  no_new_data fromstring strptime requests_get var_in_crncy_id
              url_list crncy_list.
Proof.
  intros Hup d url h status body root currency code last Hin _ _ _ _.
  by apply (Hup d url).
Qed.

(** C5, as amended.  When there is no new remote data (no observation in
    the documents the work list fetches is after the last-known date of
    its currency; so in particular when every last-known date is at least
    as recent as every observation date), a run of [download_rates] makes
    no database call; if it returns, it returns the flag [False] and the
    header of the source as text, which is not empty; and it does return
    when no fetch of the work list raises an exception that
    [download_rates] does not handle and every document that is fetched
    parses, gives each entry a currency code and, for the CBR, declares a
    date.  The email body of two such runs is empty, and the main block
    sends nothing. *)
Theorem no_new_data_run (var_in_crncy_id : Z)
    (url_list : list (date * string)) (crncy_list : gmap string date)
    (h : list (event Float)) (r : result (bool * string))
    (evs : list (event Float)) :
  no_new_data fromstring strptime requests_get var_in_crncy_id
              url_list crncy_list ->
  download_rates_ url_list crncy_list var_in_crncy_id h = (r, evs) ->
  Forall is_get evs /\
  (forall res, r = Ok res -> res = (false, header var_in_crncy_id)) /\
  ((forall h' d url,
       (d, url) ∈ url_list -> requests_get h' url 30 <> GetOtherException) ->
   (forall h' d url status body,
       (d, url) ∈ url_list ->
       requests_get h' url 30 = GetResponse status body ->
       is_http_error status = false ->
       exists root,
         fromstring body = Some root /\ has_codes var_in_crncy_id root /\
         declares_date strptime var_in_crncy_id root) ->
   r = Ok (false, header var_in_crncy_id)) /\
  header var_in_crncy_id <> "" /\
  form_email_body false (header ID_CBR) false (header ID_NBU) = "" /\
  (forall url_list_cbr crncy_list_cbr url_list_nbu crncy_list_nbu h' r' evs',
      no_new_data fromstring strptime requests_get ID_CBR
                  url_list_cbr crncy_list_cbr ->
      no_new_data fromstring strptime requests_get ID_NBU
                  url_list_nbu crncy_list_nbu ->
      main fromstring strptime py_float requests_get cur_execute
           url_list_cbr crncy_list_cbr url_list_nbu crncy_list_nbu h'
      = (r', evs') ->
      Forall is_get evs').
Proof.
  intros Hnew Hrun.
  apply download_loop_no_new_data in Hrun as (Hg & Hok & Hshape); [|done].
  split_and!; try done.
  - apply header_nonempty.
  - intros ? ? ? ? ? ? ?. apply main_no_new_data.
Qed.


(** ** At most one save for a currency and a date *)

Lemma plan_of_key d root var_in_crncy_id crncy_list currency
    key nominal value line :
  plan_of strptime py_float d root var_in_crncy_id crncy_list currency
  = PlanSave key nominal value line ->
  persist_key var_in_crncy_id currency = Some key.
Proof.
  unfold plan_of, persist_key. destruct (var_in_crncy_id =? 2)%Z.
  - unfold plan_cbr. intros H.
    destruct (attrib currency !! "ID") as [id|]; [|discriminate].
    cbn [mbind option_bind].
    repeat case_match; try discriminate; by injection H as <- <- <- <-.
  - unfold plan_nbu. intros H. cbv zeta in H.
    repeat case_match; try discriminate; by injection H as <- <- <- <-.
Qed.

Lemma save_currency_pairs d root var_in_crncy_id crncy_list acc currency h
    r evs :
  save_currency_ d root var_in_crncy_id crncy_list acc currency h = (r, evs) ->
  saved_pairs evs = [] \/
  exists key,
    persist_key var_in_crncy_id currency = Some key /\
    saved_pairs evs = [(key, d)].
Proof.
  rewrite save_currency_plan, run_plan_eq.
  destruct (plan_of _ _ _ _ _ _ _) as [e | | key nom v line] eqn:Hplan;
    try (intros [= <- <-]; by left).
  apply plan_of_key in Hplan. cbv zeta.
  repeat case_match; intros [= <- <-]; right; by exists key.
Qed.

Lemma save_loop_pairs d root var_in_crncy_id crncy_list entries acc h r evs :
  for_each (save_currency_ d root var_in_crncy_id crncy_list) acc entries h
  = (r, evs) ->
  saved_pairs evs
    `sublist_of` (fun key => (key, d)) <$>
                 omap (persist_key var_in_crncy_id) entries.
Proof.
  revert acc h r evs.
  induction entries as [| currency rest IH]; intros acc h r evs; simpl.
  - by intros [= <- <-].
  - intros H.
    apply bind_inv in H as [(e & H & _) | (t & ev1 & ev2 & H1 & H2 & ->)].
    + apply save_currency_pairs in H as [-> | (key & -> & ->)].
      * apply sublist_nil_l.
      * apply sublist_skip, sublist_nil_l.
    + apply IH in H2. rewrite saved_pairs_app.
      apply save_currency_pairs in H1 as [-> | (key & -> & ->)].
      * destruct (persist_key _ _); [by apply sublist_cons | done].
      * by apply sublist_skip.
Qed.

(** What one turn of the loop of [download_rates] saves: pairs for its own
    date, each at most once when the codes of the document differ. *)
Lemma download_item_pairs var_in_crncy_id crncy_list st item h r evs :
  (forall status body root,
      requests_get h item.2 30 = GetResponse status body ->
      is_http_error status = false ->
      fromstring body = Some root ->
      distinct_codes var_in_crncy_id root) ->
  download_item_ var_in_crncy_id crncy_list st item h = (r, evs) ->
  NoDup (saved_pairs evs) /\
  Forall (fun p => p.2 = item.1) (saved_pairs evs).
Proof.
  intros Hdocs. rewrite download_item_eq.
  destruct (requests_get h item.2 30) as [| | | status body] eqn:Hget;
    try (intros [= <- <-]; split; constructor).
  destruct (is_http_error status) eqn:Herr;
    [intros [= <- <-]; split; constructor|].
  cbv zeta. intros [= <- <-]. rewrite saved_pairs_get_cons.
  destruct (save_data_ _ _ _ _ _) as [r1 ev1] eqn:Hsave. cbn [snd].
  unfold save_data in Hsave.
  destruct (fromstring body) as [root|] eqn:Hroot.
  - apply save_loop_pairs in Hsave. split.
    + eapply sublist_NoDup; [|exact Hsave].
      apply NoDup_fmap_2; [by intros ? ? [=]|].
      by apply (Hdocs status body root).
    + apply Forall_forall. intros p Hp.
      eapply elem_of_sublist in Hp; [|exact Hsave].
      by apply list_elem_of_fmap in Hp as (key & -> & _).
  - injection Hsave as <- <-. split; constructor.
Qed.

Lemma download_loop_pairs var_in_crncy_id crncy_list url_list st h r evs :
  NoDup url_list.*1 ->
  (forall h' url status body root,
      requests_get h' url 30 = GetResponse status body ->
      is_http_error status = false ->
      fromstring body = Some root ->
      distinct_codes var_in_crncy_id root) ->
  for_each (download_item_ var_in_crncy_id crncy_list) st url_list h
  = (r, evs) ->
  NoDup (saved_pairs evs) /\
  Forall (fun p => p.2 ∈ url_list.*1) (saved_pairs evs).
Proof.
  intros Hnodup Hdocs. revert st h r evs.
  induction url_list as [| item items IH]; intros st h r evs; simpl.
  - intros [= <- <-]. split; constructor.
  - apply NoDup_cons in Hnodup as [Hfresh Hnodup]. intros H.
    apply bind_inv in H as [(e & H & _) | (s & ev1 & ev2 & H1 & H2 & ->)].
    + apply download_item_pairs in H as [Hn Hd]; [|by eauto].
      split; [done|]. eapply Forall_impl; [exact Hd|].
      intros p ->. apply list_elem_of_here.
    + apply download_item_pairs in H1 as [Hn1 Hd1]; [|by eauto].
      apply IH in H2 as [Hn2 Hd2]; [|done].
      rewrite saved_pairs_app. split.
      * apply NoDup_app. split_and!; [done | | done].
        intros p Hp1 Hp2.
        rewrite Forall_forall in Hd1. rewrite Forall_forall in Hd2.
        apply Hfresh. rewrite <- (Hd1 p Hp1). by apply Hd2.
      * apply Forall_app. split.
        -- eapply Forall_impl; [exact Hd1|].
           intros p ->. apply list_elem_of_here.
        -- eapply Forall_impl; [exact Hd2|].
           intros p Hp. by apply list_elem_of_further.
Qed.

(** C7, as amended.  In a run of [download_rates] over a work list whose
    dates differ from one another, the save-rate calls are for pairs
    (currency code, date) that differ from one another, provided that in
    each document fetched the entries are saved under codes that differ
    from one another. *)
Theorem saves_at_most_once (var_in_crncy_id : Z)
    (url_list : list (date * string)) (crncy_list : gmap string date)
    (h : list (event Float)) (r : result (bool * string))
    (evs : list (event Float)) :
  NoDup url_list.*1 ->
  (forall h' url status body root,
      requests_get h' url 30 = GetResponse status body ->
      is_http_error status = false ->
      fromstring body = Some root ->
      distinct_codes var_in_crncy_id root) ->
  download_rates_ url_list crncy_list var_in_crncy_id h = (r, evs) ->
  NoDup (saved_pairs evs).
Proof.
  intros Hnodup Hdocs Hrun.
  by apply download_loop_pairs in Hrun as [Hn _].
Qed.


(** ** Exceptions that nothing catches *)

Section AbortsOn.
Variable C : list (event Float) -> event Float -> option exn.

Lemma aborts_on_silent {A} (m : io Float A) :
  (forall h, (m h).2 = []) -> aborts_on C m.
Proof.
  intros Hm h r evs pre x post e Hrun ->.
  specialize (Hm h). rewrite Hrun in Hm. by destruct pre.
Qed.

Lemma aborts_on_bind {A B} (m : io Float A) (f : A -> io Float B) :
  aborts_on C m -> (forall a, aborts_on C (f a)) -> aborts_on C (bind m f).
Proof.
  intros Hm Hf h r evs pre x post e Hrun Hevs HC.
  apply bind_inv in Hrun
      as [(e' & H & ->) | (a & ev1 & ev2 & H1 & H2 & ->)].
  - destruct (Hm _ _ _ _ _ _ _ H Hevs HC) as [[= ->] ->]. done.
  - apply app_eq_inv in Hevs as [(k & -> & Hk) | (k & -> & ->)].
    + destruct k as [| y k]; simpl in Hk.
      * subst ev2. apply (Hf a _ _ _ [] x post e H2 eq_refl).
        by rewrite !app_nil_r.
      * injection Hk as <- ->.
        by destruct (Hm _ _ _ _ _ _ _ H1 eq_refl HC) as [[=] _].
    + apply (Hf a _ _ _ k x post e H2 eq_refl). by rewrite <- app_assoc.
Qed.

Lemma aborts_on_for_each {A B} (f : B -> A -> io Float B) (l : list A) :
  (forall acc x, aborts_on C (f acc x)) ->
  forall acc, aborts_on C (for_each f acc l).
Proof.
  intros Hf. induction l as [| x rest IH]; intros acc; simpl.
  - by apply aborts_on_silent.
  - apply aborts_on_bind; [apply Hf | apply IH].
Qed.

Lemma aborts_on_ext {A} (m m' : io Float A) :
  (forall h, m h = m' h) -> aborts_on C m' -> aborts_on C m.
Proof.
  intros Heq Hm h r evs pre x post e Hrun. rewrite Heq in Hrun.
  by apply Hm.
Qed.
End AbortsOn.

Lemma aborts_on_execute q : aborts_on (rejected cur_execute) (execute cur_execute q).
Proof.
  intros h r evs pre x post e [= <- <-] Hevs.
  destruct pre as [| y pre]; [|by destruct pre].
  injection Hevs as <- <-. rewrite app_nil_r. unfold rejected.
  by destruct (cur_execute h q); intros [= <-].
Qed.

Lemma save_data_rejected d body var_in_crncy_id crncy_list :
  aborts_on (rejected cur_execute)
    (save_data_ d body var_in_crncy_id crncy_list).
Proof.
  unfold save_data.
  destruct (fromstring body) as [root|]; [|by apply aborts_on_silent].
  apply aborts_on_for_each. intros acc currency.
  eapply aborts_on_ext; [intros h; apply save_currency_plan|].
  destruct (plan_of _ _ _ _ _ _ _) as [e | | key nom v line];
    try by apply aborts_on_silent.
  unfold run_plan.
  apply aborts_on_bind; [apply aborts_on_execute | intros _].
  apply aborts_on_bind; [apply aborts_on_execute | intros _].
  destruct line; by apply aborts_on_silent.
Qed.

Lemma download_item_rejected var_in_crncy_id crncy_list st item :
  aborts_on (rejected cur_execute)
    (download_item_ var_in_crncy_id crncy_list st item).
Proof.
  unfold download_item.
  apply aborts_on_bind.
  { intros h r evs pre x post e [= <- <-] Hevs.
    destruct pre as [| y pre]; [|by destruct pre]. by injection Hevs as <- <-. }
  intros response. apply aborts_on_bind.
  - destruct response as [| | | status body]; try by apply aborts_on_silent.
    destruct (is_http_error status); [by apply aborts_on_silent|].
    apply aborts_on_bind; [apply save_data_rejected|].
    intros text. by apply aborts_on_silent.
  - intros text. case_decide; by apply aborts_on_silent.
Qed.

Lemma download_item_malformed var_in_crncy_id crncy_list st item :
  aborts_on (malformed fromstring requests_get)
    (download_item_ var_in_crncy_id crncy_list st item).
Proof.
  intros h r evs pre x post e Hrun Hevs HC.
  pose proof Hrun as Hcalls.
  apply download_item_calls in Hcalls as (evs' & -> & Hall).
  destruct pre as [| y pre].
  - injection Hevs as <- <-. rewrite app_nil_r in HC.
    rewrite download_item_eq in Hrun. simpl in HC.
    destruct (requests_get h item.2 30) as [| | | status body];
      try discriminate.
    destruct (is_http_error status); [discriminate|].
    unfold save_data in Hrun.
    destruct (fromstring body); [discriminate|].
    injection HC as <-. by injection Hrun as <- <-.
  - injection Hevs as <- ->.
    apply Forall_app in Hall as [_ Hall].
    apply Forall_cons in Hall as [Hx _].
    by destruct x as [| [] |].
Qed.

Lemma fatal_cases h x e :
  fatal fromstring requests_get cur_execute h x = Some e ->
  malformed fromstring requests_get h x = Some e /\ e = ParseError \/
  rejected cur_execute h x = Some e /\ e = DatabaseError.
Proof.
  unfold fatal.
  destruct (malformed _ _ h x) as [e'|] eqn:Hm.
  - intros [= ->]. left. split; [done|].
    unfold malformed in Hm. by repeat case_match; simplify_eq.
  - intros Hr. right. split; [done|].
    unfold rejected in Hr. by repeat case_match; simplify_eq.
Qed.

Lemma download_rates_fatal url_list crncy_list var_in_crncy_id :
  aborts_on (fatal fromstring requests_get cur_execute) (download_rates_ url_list crncy_list var_in_crncy_id).
Proof.
  unfold download_rates. apply aborts_on_for_each. intros st item.
  intros h r evs pre x post e Hrun Hevs HC.
  apply fatal_cases in HC as [[HC _] | [HC _]].
  - by eapply download_item_malformed.
  - by eapply download_item_rejected.
Qed.

Lemma main_fatal url_list_cbr crncy_list_cbr url_list_nbu crncy_list_nbu :
  aborts_on (fatal fromstring requests_get cur_execute)
    (main fromstring strptime py_float requests_get cur_execute
          url_list_cbr crncy_list_cbr url_list_nbu crncy_list_nbu).
Proof.
  unfold main.
  apply aborts_on_bind; [apply download_rates_fatal | intros cbr].
  apply aborts_on_bind; [apply download_rates_fatal | intros nbu].
  intros h r evs pre x post e. rewrite notify_eq.
  case_decide; intros [= <- <-] Hevs; [by destruct pre|].
  destruct pre as [| y pre]; [|by destruct pre].
  by injection Hevs as <- <-.
Qed.

(** C3, as amended.  A document that is not well-formed XML and a
    statement the database rejects are not contained: the call that meets
    one is the last call of [download_rates], which raises the exception
    ([ParseError], or the driver's) instead of returning a report; nothing
    of a malformed document is saved, and the remaining entries and work
    items are not processed.  The main block ends the same way, without
    going on to the other bank or sending the email. *)
Theorem errors_abort_the_run (url_list : list (date * string))
    (crncy_list : gmap string date) (var_in_crncy_id : Z)
    (h : list (event Float)) (r : result (bool * string))
    (evs pre : list (event Float)) (x : event Float)
    (post : list (event Float)) (e : exn) :
  download_rates_ url_list crncy_list var_in_crncy_id h = (r, evs) ->
  evs = pre ++ x :: post ->
  fatal fromstring requests_get cur_execute (h ++ pre) x = Some e ->
  (r = Raise e /\ post = []) /\
  (e = ParseError \/ e = DatabaseError) /\
  (forall url_list_cbr crncy_list_cbr url_list_nbu crncy_list_nbu
          h' r' evs' pre' x' post' e',
      main fromstring strptime py_float requests_get cur_execute
           url_list_cbr crncy_list_cbr url_list_nbu crncy_list_nbu h'
      = (r', evs') ->
      evs' = pre' ++ x' :: post' ->
      fatal fromstring requests_get cur_execute (h' ++ pre') x' = Some e' ->
      r' = Raise e' /\ post' = []).
Proof.
  intros Hrun Hevs HC. split; [|split].
  - by apply (download_rates_fatal _ _ _ _ _ _ _ _ _ _ Hrun Hevs).
  - apply fatal_cases in HC as [[_ ->] | [_ ->]]; auto.
  - intros ? ? ? ? ? ? ? ? ? ? ? Hmain Hevs'.
    by apply (main_fatal _ _ _ _ _ _ _ _ _ _ _ Hmain Hevs').
Qed.


(** ** Missing fields *)

Lemma fill_is_Some crncy currency k :
  is_Some (crncy !! k) -> is_Some (fill crncy currency !! k).
Proof.
  unfold fill. revert crncy.
  induction (children currency) as [| detail rest IH]; intros crncy H;
    [done|].
  simpl. apply IH. rewrite lookup_insert_is_Some.
  destruct (decide (tag detail = k)); auto.
Qed.

(** The first entry of the first document decides, when it raises. *)
Lemma download_rates_raise var_in_crncy_id crncy_list d url items h
    status body root currency rest e evs :
  requests_get h url 30 = GetResponse status body ->
  is_http_error status = false ->
  fromstring body = Some root ->
  children root = currency :: rest ->
  save_currency_ d root var_in_crncy_id crncy_list "" currency
                 (h ++ [EvGet url 30]) = (Raise e, evs) ->
  download_rates_ ((d, url) :: items) crncy_list var_in_crncy_id h
  = (Raise e, EvGet url 30 :: evs).
Proof.
  intros Hget Herr Hroot Hchildren Hraise.
  unfold download_rates. apply for_each_raise.
  apply (download_item_raise _ _ _ (d, url) h status body); try done.
  unfold save_data. rewrite Hroot, Hchildren. by apply for_each_raise.
Qed.

(** C10.  [save_data] is not total on well-formed documents: a missing
    field raises [KeyError], which is not the parser's [ParseError] and
    which nothing catches.  For the CBR feed, with an entry whose [ID] has
    an older date in [crncy_list]: a root without [Date] attribute; and,
    the declared date being the one asked for, an entry without [Nominal]
    or [Value] child, or (after its rate is saved and committed) without
    [CharCode] child.  For the NBU feed: an entry without [r030] child;
    and, its code having an older date, without [rate] child, or (after
    its rate is saved and committed) without [cc] child.  Raised for the
    first entry of the first document, any exception is raised by
    [download_rates]. *)
Theorem missing_field_raises_key_error (d : date) (root currency : element)
    (var_in_crncy_id : Z) (crncy_list : gmap string date) (acc : string)
    (h : list (event Float)) :
  let run := save_currency_ d root var_in_crncy_id crncy_list acc currency h
  in
  (forall code,
      var_in_crncy_id = 2 ->
      attrib currency !! "ID" = Some code ->
      newer crncy_list code d ->
      (attrib root !! "Date" = None ->
       run = (Raise (KeyError "Date"), [])) /\
      (forall declared,
          attrib root !! "Date" = Some declared ->
          strptime declared = Some d ->
          let crncy := fill {[ "Identificator" := Some code ]} currency in
          (crncy !! "Nominal" = None ->
           run = (Raise (KeyError "Nominal"), [])) /\
          (is_Some (crncy !! "Nominal") -> crncy !! "Value" = None ->
           run = (Raise (KeyError "Value"), [])) /\
          (forall identificator nominal value rate,
              crncy !! "Identificator" = Some identificator ->
              crncy !! "Nominal" = Some nominal ->
              crncy !! "Value" = Some (Some value) ->
              py_float (replace_comma value) = Some rate ->
              crncy !! "CharCode" = None ->
              let q := SaveRate var_in_crncy_id identificator d
                                (NominalText nominal) rate in
              cur_execute h q = true ->
              cur_execute (h ++ [EvExecute q]) Commit = true ->
              run = (Raise (KeyError "CharCode"),
                     [EvExecute q; EvExecute Commit])))) /\
  (var_in_crncy_id <> 2 ->
   let crncy := fill ∅ currency in
   (crncy !! "r030" = None -> run = (Raise (KeyError "r030"), [])) /\
   (forall code,
       crncy !! "r030" = Some (Some code) ->
       newer crncy_list code d ->
       (crncy !! "rate" = None -> run = (Raise (KeyError "rate"), [])) /\
       (forall rate_text rate,
           crncy !! "rate" = Some (Some rate_text) ->
           py_float (replace_comma rate_text) = Some rate ->
           crncy !! "cc" = None ->
           let q := SaveRate var_in_crncy_id (Some code) d (NominalInt 1)
                             rate in
           cur_execute h q = true ->
           cur_execute (h ++ [EvExecute q]) Commit = true ->
           run = (Raise (KeyError "cc"),
                  [EvExecute q; EvExecute Commit])))) /\
  (forall key, KeyError key <> ParseError) /\
  (forall url items h' status body rest e evs,
      requests_get h' url 30 = GetResponse status body ->
      is_http_error status = false ->
      fromstring body = Some root ->
      children root = currency :: rest ->
      save_currency_ d root var_in_crncy_id crncy_list "" currency
                     (h' ++ [EvGet url 30]) = (Raise e, evs) ->
      download_rates_ ((d, url) :: items) crncy_list var_in_crncy_id h'
      = (Raise e, EvGet url 30 :: evs)).
Proof.
  intros run. subst run. rewrite save_currency_plan, run_plan_eq.
  unfold plan_of. split_and!.
  - intros code -> Hid (last & Hl & Hlt). unfold date_lt in Hlt.
    cbn [Z.eqb Pos.eqb]. unfold plan_cbr. rewrite Hid, Hl, Hlt. split.
    + by intros ->.
    + intros declared -> ->. rewrite decide_True by done. cbv zeta.
      destruct (fill_is_Some {[ "Identificator" := Some code ]} currency
                  "Identificator") as [ident Hident].
      { rewrite lookup_singleton_eq. by eexists. }
      rewrite Hident. split_and!.
      * by intros ->.
      * by intros [nominal ->] ->.
      * intros identificator nominal value rate Hi Hn Hv Hf Hc Hq Hcommit.
        injection Hi as ->.
        by rewrite Hn, Hv, Hf, Hc, Hq, Hcommit.
  - intros Hid. apply Z.eqb_neq in Hid. rewrite Hid. unfold plan_nbu.
    cbv zeta. split.
    + by intros ->.
    + intros code -> (last & Hl & Hlt). unfold date_lt in Hlt.
      cbn [mbind option_bind]. rewrite Hl, Hlt. split.
      * by intros ->.
      * intros rate_text rate -> -> -> Hq Hcommit.
        by rewrite Hq, Hcommit.
  - done.
  - intros url items h' status body rest e evs.
    apply download_rates_raise.
Qed.


(** ** Reading the cursor *)

(** The loop, as the source has it: the body, then the next [fetchone]. *)
Lemma while_row_fetchone {R D} (body : D -> R -> D) d r (cursor : list R) :
  while_row body d (Some r) cursor
  = while_row body (body d r) (fetchone cursor).1 (fetchone cursor).2.
Proof. by destruct cursor. Qed.

(** The loop takes every row, in order, and leaves the cursor empty. *)
Lemma while_row_foldl {R D} (body : D -> R -> D) d (rows : list R) :
  while_row body d (fetchone rows).1 (fetchone rows).2
  = (foldl body d rows, []).
Proof.
  revert d. induction rows as [| r rows IH]; intros d; [done|].
  simpl. destruct rows as [| r' rows]; [done|]. apply (IH (body d r)).
Qed.

Lemma dict_get_set {K V} `{EqDecision K} (d : list (K * V)) k v k' :
  dict_get (dict_set d k v) k'
  = if decide (k = k') then Some v else dict_get d k'.
Proof.
  induction d as [| [k0 v0] d IH]; simpl.
  - done.
  - destruct (decide (k0 = k)) as [-> | Hne]; simpl.
    + by destruct (decide (k = k')).
    + rewrite IH. destruct (decide (k0 = k')) as [-> | ?]; [|done].
      by rewrite decide_False.
Qed.

Lemma dict_set_keys {K V} `{EqDecision K} (d : list (K * V)) k v :
  (dict_set d k v).*1 = if decide (k ∈ d.*1) then d.*1 else d.*1 ++ [k].
Proof.
  induction d as [| [k0 v0] d IH].
  - destruct (decide (k ∈ ([] : list (K * V)).*1)) as [Hin | _]; [|done].
    by apply elem_of_nil in Hin.
  - cbn [dict_set fmap list_fmap fst].
    destruct (decide (k0 = k)) as [-> | Hne]; cbn [fmap list_fmap fst].
    + destruct (decide (k ∈ k :: d.*1)) as [_ | Hnin]; [done|].
      destruct Hnin. apply list_elem_of_here.
    + rewrite IH.
      destruct (decide (k ∈ d.*1)) as [Hin | Hnin],
               (decide (k ∈ k0 :: d.*1)) as [Hin' | Hnin']; try done.
      * destruct Hnin'. by apply list_elem_of_further.
      * apply elem_of_cons in Hin' as [? | ?]; congruence.
Qed.

Lemma dict_set_NoDup {K V} `{EqDecision K} (d : list (K * V)) k v :
  NoDup d.*1 -> NoDup (dict_set d k v).*1.
Proof.
  intros Hd. rewrite dict_set_keys. case_decide as Hin; [done|].
  apply NoDup_app. split_and!; [done | | apply NoDup_singleton].
  intros x Hx Hk. apply list_elem_of_singleton in Hk. by subst.
Qed.

Lemma dict_set_fresh {K V} `{EqDecision K} (d : list (K * V)) k v :
  k ∉ d.*1 -> dict_set d k v = d ++ [(k, v)].
Proof.
  induction d as [| [k0 v0] d IH]; simpl; [done|]. intros Hnin.
  apply not_elem_of_cons in Hnin as [Hne Hnin].
  rewrite decide_False by done. by rewrite IH.
Qed.

Lemma dict_get_app {K V} `{EqDecision K} (d1 d2 : list (K * V)) k :
  dict_get (d1 ++ d2) k
  = match dict_get d1 k with
    | Some v => Some v
    | None => dict_get d2 k
    end.
Proof.
  induction d1 as [| [k0 v0] d1 IH]; simpl; [done|].
  by destruct (decide (k0 = k)).
Qed.

Lemma dict_get_is_Some {K V} `{EqDecision K} (d : list (K * V)) k :
  is_Some (dict_get d k) <-> k ∈ d.*1.
Proof.
  induction d as [| [k0 v0] d IH]; simpl.
  - split; [by intros [? [=]] | by intros ?%elem_of_nil].
  - destruct (decide (k0 = k)) as [-> | Hne].
    + split; [intros _; apply list_elem_of_here | by eexists].
    + rewrite IH. split; [by apply list_elem_of_further|].
      intros Hin. apply elem_of_cons in Hin as [? | ?]; [congruence | done].
Qed.

(** The dict built from rows: keys that differ, each with the value of the
    last row that has it. *)
Lemma dict_of_rows {K V} `{EqDecision K} (rows d : list (K * V)) :
  let result := foldl (fun d row => dict_set d row.1 row.2) d rows in
  (NoDup d.*1 -> NoDup result.*1) /\
  (forall k, dict_get result k
             = match dict_get (reverse rows) k with
               | Some v => Some v
               | None => dict_get d k
               end) /\
  (forall k, k ∈ result.*1 <-> k ∈ d.*1 \/ k ∈ rows.*1).
Proof.
  revert d. induction rows as [| [k0 v0] rows IH]; intros d; simpl.
  - split_and!; [done | done |]. intros k. split; [by left|].
    intros [? | ?%elem_of_nil]; done.
  - destruct (IH (dict_set d k0 v0)) as (Hnodup & Hget & Hkeys).
    split_and!.
    + intros Hd. by apply Hnodup, dict_set_NoDup.
    + intros k. rewrite Hget, reverse_cons, dict_get_app, dict_get_set.
      simpl. destruct (dict_get (reverse rows) k); [done|].
      by destruct (decide (k0 = k)).
    + intros k. rewrite Hkeys, dict_set_keys. cbn [fmap list_fmap fst].
      case_decide as Hin; split.
      * intros [? | ?]; [by left | right; by apply list_elem_of_further].
      * intros [? | Hk]; [by left|].
        apply elem_of_cons in Hk as [-> | ?]; [by left | by right].
      * intros [Hk | ?]; [|right; by apply list_elem_of_further].
        apply elem_of_app in Hk as [? | Hk]; [by left|].
        apply list_elem_of_singleton in Hk as ->.
        right. apply list_elem_of_here.
      * intros [? | Hk]; [left; apply elem_of_app; by left|].
        apply elem_of_cons in Hk as [-> | ?]; [|by right].
        left. apply elem_of_app. right. apply list_elem_of_here.
Qed.


Lemma foldl_dict_set_distinct {K V} `{EqDecision K} (rows d : list (K * V)) :
  NoDup (d.*1 ++ rows.*1) ->
  foldl (fun d row => dict_set d row.1 row.2) d rows = d ++ rows.
Proof.
  revert d. induction rows as [| [k v] rows IH]; intros d Hnodup; simpl.
  - by rewrite app_nil_r.
  - cbn [fmap list_fmap fst] in Hnodup.
    assert (Hfresh : k ∉ d.*1).
    { apply NoDup_app in Hnodup as (_ & Hdisj & _). intros Hin.
      apply (Hdisj k Hin), list_elem_of_here. }
    rewrite IH, dict_set_fresh by
      (rewrite ?dict_set_fresh, ?fmap_app, <- ?app_assoc; done).
    by rewrite <- app_assoc.
Qed.

(** X1.  Whatever rows the cursor yields, also with a date repeated,
    [get_url_list]'s loop fetches all of them (it leaves the cursor empty)
    and the dates of the dict it builds differ from one another; a date is
    in the dict exactly when a row has it. *)
Theorem read_url_list_distinct_dates (rows : list (date * string)) :
  NoDup (read_url_list rows).1.*1 /\
  (read_url_list rows).2 = [] /\
  (forall d, d ∈ (read_url_list rows).1.*1 <-> d ∈ rows.*1).
Proof.
  unfold read_url_list. rewrite while_row_foldl. cbn [fst snd].
  destruct (dict_of_rows rows []) as (Hnodup & _ & Hkeys).
  split_and!; [apply Hnodup, NoDup_nil_2 | done |].
  intros d. rewrite (Hkeys d). split; [|by right].
  by intros [?%elem_of_nil | ?].
Qed.

(** X2.  When several rows have the same date, the URL the dict keeps for
    it is that of the last of them: looking a date up in the dict is looking
    it up in the rows read backwards. *)
Theorem read_url_list_last_row_wins (rows : list (date * string)) (d : date) :
  dict_get (read_url_list rows).1 d = dict_get (reverse rows) d.
Proof.
  unfold read_url_list. rewrite while_row_foldl. cbn [fst].
  destruct (dict_of_rows rows []) as (_ & Hget & _).
  rewrite (Hget d). by destruct (dict_get (reverse rows) d).
Qed.

(** X3.  When the dates of the rows differ from one another, the work list
    is the rows themselves, in the order of the cursor. *)
Theorem read_url_list_distinct_rows (rows : list (date * string)) :
  NoDup rows.*1 -> (read_url_list rows).1 = rows.
Proof.
  intros Hnodup. unfold read_url_list. rewrite while_row_foldl. cbn [fst].
  by rewrite foldl_dict_set_distinct.
Qed.

Lemma foldl_insert_lookup (rows : list (string * date))
    (m : gmap string date) (code : string) :
  foldl (fun m row => <[row.1 := row.2]> m) m rows !! code
  = match dict_get (reverse rows) code with
    | Some last => Some last
    | None => m !! code
    end.
Proof.
  revert m. induction rows as [| [k v] rows IH]; intros m; [done|].
  cbn [foldl fst snd]. rewrite IH, reverse_cons, dict_get_app.
  destruct (dict_get (reverse rows) code); [done|].
  cbn [dict_get]. destruct (decide (k = code)) as [-> | Hne].
  - by rewrite lookup_insert_eq.
  - by rewrite lookup_insert_ne.
Qed.

(** X4.  [get_crncy_list]'s loop fetches every row, and the last-known date
    it keeps for a currency is that of the last row with the currency; a
    currency no row has is not a key. *)
Theorem read_crncy_list_last_row_wins (rows : list (string * date))
    (code : string) :
  (read_crncy_list rows).2 = [] /\
  (read_crncy_list rows).1 !! code = dict_get (reverse rows) code /\
  (is_Some ((read_crncy_list rows).1 !! code) <-> code ∈ rows.*1).
Proof.
  unfold read_crncy_list. rewrite while_row_foldl. cbn [fst snd].
  assert (Hget : foldl (fun m row => <[row.1 := row.2]> m)
                        (∅ : gmap string date) rows !! code
                 = dict_get (reverse rows) code).
  { rewrite foldl_insert_lookup. by destruct (dict_get (reverse rows) code). }
  split_and!; [done | done |].
  rewrite Hget, dict_get_is_Some, fmap_reverse. apply elem_of_reverse.
Qed.


(** ** More on [download_rates] and [save_data] *)

(** X7.  As the docstring of [download_rates] has it, the flag it returns
    is [True] exactly when the run has saved something to the database. *)
Theorem flag_iff_saved (url_list : list (date * string))
    (crncy_list : gmap string date) (var_in_crncy_id : Z)
    (h : list (event Float)) (has_result_to_send : bool)
    (email_body : string) (evs : list (event Float)) :
  download_rates_ url_list crncy_list var_in_crncy_id h
  = (Ok (has_result_to_send, email_body), evs) ->
  has_result_to_send = true <-> saved_pairs evs <> [].
Proof.
  intros H. apply download_loop_state in H as (rest & _ & Hnone & Hsome).
  cbn [fst] in Hsome. split.
  - intros -> Hs. by specialize (Hnone Hs).
  - intros Hs. by apply Hsome.
Qed.

(** X10.  When no fetch succeeds, the run still completes: one GET for each
    work item, in order, no database call, the flag [False] and the header
    alone as text. *)
Theorem all_fetches_fail (url_list : list (date * string))
    (crncy_list : gmap string date) (var_in_crncy_id : Z)
    (h : list (event Float)) :
  (forall h' url, fetch_failed (requests_get h' url 30)) ->
  download_rates_ url_list crncy_list var_in_crncy_id h
  = (Ok (false, header var_in_crncy_id),
     (fun item => EvGet item.2 30) <$> url_list).
Proof.
  intros Hfail. unfold download_rates.
  generalize (false, header var_in_crncy_id). revert h.
  induction url_list as [| item items IH]; intros h st; [done|].
  rewrite (for_each_ok _ st item items h st [EvGet item.2 30])
    by apply download_item_skip, Hfail.
  by rewrite IH.
Qed.

Lemma omap_length_le {A B} (f : A -> option B) (l : list A) :
  (length (omap f l) <= length l)%nat.
Proof.
  induction l as [| x l IH]; [done|]. cbn [omap list_omap].
  fold (omap f l). destruct (f x); cbn [length]; lia.
Qed.

(** X13.  [save_data] saves at most once for each entry of the document,
    in the order of the document, for the date it was called with and under
    the code of the entry. *)
Theorem one_save_per_entry (d : date) (body : string) (root : element)
    (var_in_crncy_id : Z) (crncy_list : gmap string date)
    (h : list (event Float)) (r : result string) (evs : list (event Float)) :
  fromstring body = Some root ->
  save_data_ d body var_in_crncy_id crncy_list h = (r, evs) ->
  saved_pairs evs
    `sublist_of` (fun key => (key, d)) <$>
                 omap (persist_key var_in_crncy_id) (children root) /\
  (length (saved_pairs evs) <= length (children root))%nat.
Proof.
  intros Hroot. unfold save_data. rewrite Hroot. intros Hrun.
  apply save_loop_pairs in Hrun. split; [done|].
  apply sublist_length in Hrun. rewrite length_fmap in Hrun.
  pose proof (omap_length_le (persist_key var_in_crncy_id) (children root)).
  lia.
Qed.


(** A plan saves only for a code with an older date in [crncy_list]. *)
Lemma plan_of_save_newer d root var_in_crncy_id crncy_list currency
    key nominal value line :
  plan_of strptime py_float d root var_in_crncy_id crncy_list currency
  = PlanSave key nominal value line ->
  exists code,
    filter_key var_in_crncy_id currency = Some (Some code) /\
    newer crncy_list code d.
Proof.
  unfold plan_of, filter_key, newer, date_lt.
  destruct (var_in_crncy_id =? 2)%Z.
  - unfold plan_cbr.
    destruct (attrib currency !! "ID") as [id|]; [|discriminate].
    destruct (crncy_list !! id) as [last|] eqn:Hl; [|discriminate].
    destruct (date_ltb last d) eqn:Hlt; [|discriminate].
    intros _. exists id. split; [done|]. by exists last.
  - unfold plan_nbu. cbv zeta.
    destruct (fill ∅ currency !! "r030") as [[code|]|]; try discriminate.
    cbn [mbind option_bind].
    destruct (crncy_list !! code) as [last|] eqn:Hl; [|discriminate].
    destruct (date_ltb last d) eqn:Hlt; [|discriminate].
    intros _. exists code. split; [done|]. by exists last.
Qed.

Lemma save_data_newer d body var_in_crncy_id crncy_list :
  all_calls (fun e => forall i c d' n v,
                 e = EvExecute (SaveRate i c d' n v) ->
                 i = var_in_crncy_id /\ d' = d /\
                 exists code, newer crncy_list code d)
    (save_data_ d body var_in_crncy_id crncy_list).
Proof.
  unfold save_data.
  destruct (fromstring body) as [root|]; [|apply all_calls_raise].
  apply all_calls_for_each. intros acc currency h r evs.
  rewrite save_currency_plan, run_plan_eq.
  destruct (plan_of _ _ _ _ _ _ _) as [e | | key nom v line] eqn:Hplan;
    try (intros [= <- <-]; constructor).
  apply plan_of_save_newer in Hplan as (code & _ & Hnewer).
  cbv zeta. repeat case_match; intros [= <- <-];
    repeat (apply Forall_cons; split;
            [intros ? ? ? ? ? Heq; inversion Heq; subst; eauto|]);
    try apply Forall_nil; done.
Qed.

(** X9.  Every save-rate call of a run is made with the source identifier
    of the run, for a date of the work list, and only if some currency of
    [crncy_list] has a last-known date strictly before that date; with an
    empty [crncy_list] nothing is ever saved. *)
Theorem saves_only_newer (url_list : list (date * string))
    (crncy_list : gmap string date) (var_in_crncy_id : Z)
    (h : list (event Float)) (r : result (bool * string))
    (evs : list (event Float)) :
  download_rates_ url_list crncy_list var_in_crncy_id h = (r, evs) ->
  (forall i c d n v,
      EvExecute (SaveRate i c d n v) ∈ evs ->
      i = var_in_crncy_id /\ d ∈ url_list.*1 /\
      exists code, newer crncy_list code d) /\
  (crncy_list = ∅ -> saved_pairs evs = []).
Proof.
  intros Hrun.
  assert (Hall : forall i c d n v,
             EvExecute (SaveRate i c d n v) ∈ evs ->
             i = var_in_crncy_id /\ d ∈ url_list.*1 /\
             exists code, newer crncy_list code d).
  { unfold download_rates in Hrun. revert Hrun.
    generalize (false, header var_in_crncy_id). revert h r evs.
    induction url_list as [| item items IH]; intros h r evs st; simpl.
    - intros [= <- <-] i c d n v Hin. by apply elem_of_nil in Hin.
    - intros Hrun i c d n v Hin.
      assert (Hitem : forall st' h' r' evs',
                 download_item_ var_in_crncy_id crncy_list st' item h'
                 = (r', evs') ->
                 EvExecute (SaveRate i c d n v) ∈ evs' ->
                 i = var_in_crncy_id /\ d = item.1 /\
                 exists code, newer crncy_list code d).
      { intros st' h' r' evs'. rewrite download_item_eq.
        destruct (requests_get h' item.2 30) as [| | | status body];
          try (intros [= <- <-] Hin';
               apply list_elem_of_singleton in Hin'; discriminate).
        destruct (is_http_error status);
          [intros [= <- <-] Hin';
           apply list_elem_of_singleton in Hin'; discriminate|].
        cbv zeta.
        destruct (save_data_ _ _ _ _ _) as [r1 ev1] eqn:Hs. cbn [fst snd].
        intros [= <- <-] Hin'. apply elem_of_cons in Hin' as [[=] | Hin'].
        apply save_data_newer in Hs. rewrite Forall_forall in Hs.
        by destruct (Hs _ Hin' i c d n v eq_refl) as (-> & -> & Hn). }
      apply bind_inv in Hrun
          as [(e & H & _) | (s & ev1 & ev2 & H1 & H2 & ->)].
      + destruct (Hitem _ _ _ _ H Hin) as (-> & -> & Hn).
        split_and!; [done | apply list_elem_of_here | done].
      + apply elem_of_app in Hin as [Hin | Hin].
        * destruct (Hitem _ _ _ _ H1 Hin) as (-> & -> & Hn).
          split_and!; [done | apply list_elem_of_here | done].
        * destruct (IH _ _ _ _ H2 i c d n v Hin) as (-> & Hd & Hn).
          split_and!; [done | by apply list_elem_of_further | done]. }
  split; [exact Hall|].
  intros ->. destruct (saved_pairs evs) as [| [c d] l] eqn:Hs; [done|].
  assert (Hin : (c, d) ∈ saved_pairs evs) by (rewrite Hs; apply list_elem_of_here).
  unfold saved_pairs in Hin. apply list_elem_of_omap in Hin as (e & Hin & He).
  destruct e as [| [i c' d' n v |] |]; try discriminate.
  destruct (Hall i c' d' n v Hin) as (_ & _ & code & last & Hl & _).
  by rewrite lookup_empty in Hl.
Qed.


Lemma date_lt_le_trans (a b c : date) :
  date_lt a b -> date_le b c -> date_lt a c.
Proof.
  unfold date_le, date_lt. rewrite !date_ltb_spec.
  intros Hab [Hbc | <-]; [lia | done].
Qed.

(** X15.  The filter is monotone in the date: for the NBU feed, an entry
    that is skipped for a date is skipped for every earlier date as well
    (so what is kept for a date is kept for every later one). *)
Theorem nbu_filter_monotone (d d' : date) (root currency : element)
    (var_in_crncy_id : Z) (crncy_list : gmap string date)
    (acc code : string) (h : list (event Float)) :
  var_in_crncy_id <> 2 ->
  filter_key var_in_crncy_id currency = Some (Some code) ->
  date_le d d' ->
  save_currency_ d' root var_in_crncy_id crncy_list acc currency h
  = (Ok acc, []) ->
  save_currency_ d root var_in_crncy_id crncy_list acc currency h
  = (Ok acc, []).
Proof.
  intros Hid Hkey Hle. rewrite !save_currency_plan, !run_plan_eq.
  pose proof (plan_of_filter d' root var_in_crncy_id crncy_list currency code
                Hkey ltac:(done)) as Hd'.
  pose proof (plan_of_filter d root var_in_crncy_id crncy_list currency code
                Hkey ltac:(done)) as Hd.
  destruct (plan_of _ _ d' _ _ _ _) as [e | | key nom v line];
    [discriminate | | cbv zeta; repeat case_match; discriminate].
  intros _.
  destruct (plan_of _ _ d _ _ _ _) as [e | | key nom v line]; [| done |].
  - destruct Hd as (last & Hl & Hlt). destruct Hd'. exists last.
    split; [done|]. by eapply date_lt_le_trans.
  - destruct Hd as (last & Hl & Hlt). destruct Hd'. exists last.
    split; [done|]. by eapply date_lt_le_trans.
Qed.

Lemma foldl_insert_other (l : list element) (crncy : gmap string (option string))
    (k : string) :
  Forall (fun detail => tag detail <> k) l ->
  foldl (fun c detail => <[tag detail := text detail]> c) crncy l !! k
  = crncy !! k.
Proof.
  intros Hl. revert crncy. induction Hl as [| detail l Hne _ IH]; intros crncy;
    [done|].
  simpl. rewrite IH. by apply lookup_insert_ne.
Qed.

(** X12.  When a child tag occurs more than once in an entry, the text of
    the last occurrence is the one kept.  So for the CBR feed the code a
    rate is saved under is the [ID] attribute only if no child is named
    [Identificator]; a child of that name replaces it, while the entry is
    still looked up in [crncy_list] under the [ID] attribute. *)
Theorem last_child_wins (crncy : gmap string (option string))
    (currency : element) (k : string) :
  (Forall (fun detail => tag detail <> k) (children currency) ->
   fill crncy currency !! k = crncy !! k) /\
  (forall pre detail post,
      children currency = pre ++ detail :: post ->
      tag detail = k ->
      Forall (fun detail' => tag detail' <> k) post ->
      fill crncy currency !! k = Some (text detail)) /\
  (forall id,
      attrib currency !! "ID" = Some id ->
      filter_key 2 currency = Some (Some id) /\
      (Forall (fun detail => tag detail <> "Identificator")
              (children currency) ->
       persist_key 2 currency = Some (Some id)) /\
      (forall pre detail post,
          children currency = pre ++ detail :: post ->
          tag detail = "Identificator" ->
          Forall (fun detail' => tag detail' <> "Identificator") post ->
          persist_key 2 currency = Some (text detail))).
Proof.
  assert (Hlast : forall c k' pre detail post,
             children currency = pre ++ detail :: post ->
             tag detail = k' ->
             Forall (fun detail' => tag detail' <> k') post ->
             fill c currency !! k' = Some (text detail)).
  { intros c k' pre detail post Hch <- Hpost. unfold fill.
    rewrite Hch, foldl_app. cbn [foldl].
    rewrite foldl_insert_other by done. apply lookup_insert_eq. }
  split_and!.
  - intros Hl. by apply foldl_insert_other.
  - apply Hlast.
  - intros id Hid. unfold filter_key, persist_key. cbn [Z.eqb Pos.eqb].
    rewrite Hid. cbn [fmap option_fmap option_map mbind option_bind].
    split_and!; [done | |].
    + intros Hl. unfold fill. rewrite foldl_insert_other by done.
      apply lookup_singleton_eq.
    + apply Hlast.
Qed.

(** X14.  The text handed to [float] has no comma left, has the length of
    the field's text, and is that text when it has no comma. *)
Theorem replace_comma_spec (s : string) :
  commas (replace_comma s) = 0%nat /\
  String.length (replace_comma s) = String.length s /\
  (commas s = 0%nat -> replace_comma s = s).
Proof.
  induction s as [| c s (IH1 & IH2 & IH3)]; [done|].
  cbn [replace_comma commas String.length].
  destruct (Ascii.eqb c ",") eqn:Hc.
  - split_and!; [by rewrite IH1 | by rewrite IH2 | discriminate].
  - rewrite Hc. split_and!; [by rewrite IH1 | by rewrite IH2 |].
    intros Hs. by rewrite IH3.
Qed.


(** ** Every saved rate is committed at once *)

Lemma committed_app_both (a b : list (event Float)) :
  committed b ->
  (committed a -> ~ dangling a -> committed (a ++ b)) /\
  (forall x, committed (x :: a) -> ~ dangling (x :: a) ->
             committed (x :: a ++ b)).
Proof.
  intros Hb. induction a as [| y a [IH1 IH2]].
  - split; [done|]. intros x Hx Hd.
    destruct x as [| [] |]; try done; by destruct Hd.
  - split; [apply IH2|]. intros x Hx Hd.
    destruct x as [| [i c d n v |] |]; try by apply IH2.
    destruct y as [| [|] |]; try done.
    cbn [committed app] in *. apply IH1; [done|].
    intros Ha. apply Hd. unfold dangling in *.
    destruct a as [| z a]; [done|]. by rewrite !last_cons_cons.
Qed.

Lemma committed_app (a b : list (event Float)) :
  committed a -> ~ dangling a -> committed b -> committed (a ++ b).
Proof. intros Ha Hd Hb. by apply committed_app_both. Qed.

Lemma classic_dangling (evs : list (event Float)) :
  dangling evs \/ ~ dangling evs.
Proof.
  unfold dangling. destruct (last evs) as [[| [] |]|]; auto.
Qed.

Lemma dangling_app (a b : list (event Float)) :
  ~ dangling a -> ~ dangling b -> ~ dangling (a ++ b).
Proof.
  unfold dangling. rewrite last_app. by destruct (last b).
Qed.

Lemma commits_saves_silent {A} (m : io Float A) :
  (forall h, (m h).2 = []) -> commits_saves m.
Proof.
  intros Hm h r evs Hrun. specialize (Hm h). rewrite Hrun in Hm.
  cbn [snd] in Hm. by subst evs.
Qed.

Lemma commits_saves_bind {A B} (m : io Float A) (f : A -> io Float B) :
  commits_saves m -> (forall a, commits_saves (f a)) ->
  commits_saves (bind m f).
Proof.
  intros Hm Hf h r evs Hrun.
  apply bind_inv in Hrun as [(e & H & ->) | (a & ev1 & ev2 & H1 & H2 & ->)].
  - destruct (Hm _ _ _ H) as [Hc Hd]. split; [done|].
    intros Hdang. by injection (Hd Hdang) as ->.
  - destruct (Hm _ _ _ H1) as [Hc1 Hd1]. destruct (Hf a _ _ _ H2) as [Hc2 Hd2].
    assert (Hnd : ~ dangling ev1) by (intros Hdang; by specialize (Hd1 Hdang)).
    split; [by apply committed_app|].
    intros Hdang. apply Hd2.
    destruct (classic_dangling ev2) as [? | Hnd2]; [done|].
    by destruct (dangling_app _ _ Hnd Hnd2).
Qed.

Lemma commits_saves_for_each {A B} (f : B -> A -> io Float B) (l : list A) :
  (forall acc x, commits_saves (f acc x)) ->
  forall acc, commits_saves (for_each f acc l).
Proof.
  intros Hf. induction l as [| x rest IH]; intros acc; simpl.
  - by apply commits_saves_silent.
  - apply commits_saves_bind; [apply Hf | apply IH].
Qed.

Lemma save_data_commits d body var_in_crncy_id crncy_list :
  commits_saves (save_data_ d body var_in_crncy_id crncy_list).
Proof.
  unfold save_data.
  destruct (fromstring body) as [root|]; [|by apply commits_saves_silent].
  apply commits_saves_for_each. intros acc currency h r evs.
  rewrite save_currency_plan, run_plan_eq.
  destruct (plan_of _ _ _ _ _ _ _) as [e | | key nom v line];
    try (by intros [= <- <-]).
  cbv zeta. repeat case_match; by intros [= <- <-].
Qed.

Lemma download_item_commits var_in_crncy_id crncy_list st item :
  commits_saves (download_item_ var_in_crncy_id crncy_list st item).
Proof.
  unfold download_item. apply commits_saves_bind.
  { by intros h r evs [= <- <-]. }
  intros response. apply commits_saves_bind.
  - destruct response as [| | | status body];
      try by apply commits_saves_silent.
    destruct (is_http_error status); [by apply commits_saves_silent|].
    apply commits_saves_bind; [apply save_data_commits|].
    intros text. by apply commits_saves_silent.
  - intros text. case_decide; by apply commits_saves_silent.
Qed.

Lemma download_rates_commits url_list crncy_list var_in_crncy_id :
  commits_saves (download_rates_ url_list crncy_list var_in_crncy_id).
Proof.
  unfold download_rates. apply commits_saves_for_each.
  intros st item. apply download_item_commits.
Qed.

(** X8.  Each rate is committed on its own: in the calls of a run, a
    save-rate call is followed at once by its COMMIT, unless it is the last
    call, and then the run has raised the driver's exception; a run that
    returns leaves no save without its COMMIT. *)
Theorem saves_are_committed (url_list : list (date * string))
    (crncy_list : gmap string date) (var_in_crncy_id : Z)
    (h : list (event Float)) (r : result (bool * string))
    (evs : list (event Float)) :
  download_rates_ url_list crncy_list var_in_crncy_id h = (r, evs) ->
  committed evs /\
  (dangling evs -> r = Raise DatabaseError) /\
  (forall res, r = Ok res -> ~ dangling evs).
Proof.
  intros Hrun.
  destruct (download_rates_commits _ _ _ _ _ _ Hrun) as [Hc Hd].
  split_and!; [done | done |]. intros res -> Hdang. by specialize (Hd Hdang).
Qed.


(** ** The sections of a report *)






(** ** The main block *)

Variable f_crncy_downldr_return_url :
  list (event Float) -> Z -> bool -> date -> date ->
  option (list (date * string)).
Variable f_crncy_downldr_return_crncs :
  list (event Float) -> Z -> bool -> date -> option (list (string * date)).

Local Abbreviation get_url_list_ :=
  (get_url_list cur_execute f_crncy_downldr_return_url).
Local Abbreviation get_crncy_list_ :=
  (get_crncy_list cur_execute f_crncy_downldr_return_crncs).
Local Abbreviation script_ :=
  (script fromstring strptime py_float requests_get cur_execute
          f_crncy_downldr_return_url f_crncy_downldr_return_crncs).

Lemma get_url_list_eq var_in_crncy_id check min_date max_date h :
  get_url_list_ var_in_crncy_id check min_date max_date h
  = match f_crncy_downldr_return_url h var_in_crncy_id check min_date
                                     max_date with
    | None => (Raise DatabaseError, [])
    | Some rows =>
        (if cur_execute h Commit then Ok (read_url_list rows).1
         else Raise DatabaseError, [EvExecute Commit])
    end.
Proof.
  unfold get_url_list, select, bind, execute, ret.
  destruct (f_crncy_downldr_return_url _ _ _ _ _) as [rows|]; [|done].
  rewrite app_nil_r. by destruct (cur_execute h Commit).
Qed.

Lemma get_crncy_list_eq var_in_crncy_id check min_date h :
  get_crncy_list_ var_in_crncy_id check min_date h
  = match f_crncy_downldr_return_crncs h var_in_crncy_id check min_date with
    | None => (Raise DatabaseError, [])
    | Some rows =>
        (if cur_execute h Commit then Ok (read_crncy_list rows).1
         else Raise DatabaseError, [EvExecute Commit])
    end.
Proof.
  unfold get_crncy_list, select, bind, execute, ret.
  destruct (f_crncy_downldr_return_crncs _ _ _ _) as [rows|]; [|done].
  rewrite app_nil_r. by destruct (cur_execute h Commit).
Qed.

(** Calls that are COMMITs. *)
Lemma get_url_list_calls var_in_crncy_id check min_date max_date h r evs :
  get_url_list_ var_in_crncy_id check min_date max_date h = (r, evs) ->
  Forall (fun e => e = EvExecute Commit) evs /\
  (forall url_list, r = Ok url_list -> NoDup url_list.*1).
Proof.
  rewrite get_url_list_eq.
  destruct (f_crncy_downldr_return_url _ _ _ _ _) as [rows|];
    [|intros [= <- <-]; split; [constructor | by intros ? [=]]].
  intros [= <- <-]. split; [by repeat constructor|].
  destruct (cur_execute h Commit); intros url_list [= <-].
  unfold read_url_list. rewrite while_row_foldl. cbn [fst].
  apply (dict_of_rows rows []), NoDup_nil_2.
Qed.

Lemma get_crncy_list_calls var_in_crncy_id check min_date h r evs :
  get_crncy_list_ var_in_crncy_id check min_date h = (r, evs) ->
  Forall (fun e => e = EvExecute Commit) evs.
Proof.
  rewrite get_crncy_list_eq.
  destruct (f_crncy_downldr_return_crncs _ _ _ _) as [rows|];
    intros [= <- <-]; by repeat constructor.
Qed.

Lemma emails_app (evs1 evs2 : list (event Float)) :
  emails (evs1 ++ evs2) = emails evs1 ++ emails evs2.
Proof. apply omap_app. Qed.

Lemma saved_triples_app (evs1 evs2 : list (event Float)) :
  saved_triples (evs1 ++ evs2) = saved_triples evs1 ++ saved_triples evs2.
Proof. apply omap_app. Qed.

Lemma commits_read (evs : list (event Float)) :
  Forall (fun e => e = EvExecute Commit) evs ->
  emails evs = [] /\ saved_triples evs = [] /\ saved_pairs evs = [] /\
  requests evs = [].
Proof.
  induction 1 as [| e evs -> _ (IH1 & IH2 & IH3 & IH4)]; [done|].
  by split_and!.
Qed.

(** What a run of [download_rates] for a source leaves in the trace: no
    email, and saves under the identifier of the source. *)
Lemma download_rates_read url_list crncy_list var_in_crncy_id h r evs :
  download_rates_ url_list crncy_list var_in_crncy_id h = (r, evs) ->
  emails evs = [] /\
  saved_triples evs
  = (fun p => (var_in_crncy_id, p.1, p.2)) <$> saved_pairs evs.
Proof.
  intros Hrun.
  assert (Hall : Forall (fun e => match e with
                                  | EvExecute (SaveRate i _ _ _ _) =>
                                      i = var_in_crncy_id
                                  | EvSendEmail _ => False
                                  | _ => True
                                  end) evs).
  { revert Hrun. apply all_calls_download_rates; [done|].
    intros d body h' r' evs' Hs. apply save_data_calls in Hs.
    eapply Forall_impl; [exact Hs|]. by intros [| [] |]; simpl; try tauto. }
  clear Hrun. induction Hall as [| e evs He _ [IH1 IH2]]; [done|].
  destruct e as [| [i c d n v |] |]; try done.
  subst i. split; [done|]. unfold saved_triples, saved_pairs in *.
  cbn [omap list_omap saved_triple saved_pair fmap list_fmap fst snd].
  by f_equal.
Qed.


(** The trace of the main block, whatever its result: the COMMITs of the
    first two reads, the run for the CBR, the COMMITs of the next two
    reads, the run for the NBU, and the email.  A part that was not reached
    is empty. *)
Lemma script_trace MAX_DATE h r evs :
  script_ MAX_DATE h = (r, evs) ->
  exists c1 ev_cbr c2 ev_nbu mail,
    evs = c1 ++ ev_cbr ++ c2 ++ ev_nbu ++ mail /\
    Forall (fun e => e = EvExecute Commit) c1 /\
    Forall (fun e => e = EvExecute Commit) c2 /\
    (ev_cbr = [] \/
     exists url_list crncy_list h' r',
       NoDup url_list.*1 /\
       download_rates_ url_list crncy_list ID_CBR h' = (r', ev_cbr)) /\
    (ev_nbu = [] \/
     exists url_list crncy_list h' r',
       NoDup url_list.*1 /\
       download_rates_ url_list crncy_list ID_NBU h' = (r', ev_nbu)) /\
    ((exists e, r = Raise e) /\ mail = [] \/
     exists url_list_cbr crncy_list_cbr h_cbr cbr
            url_list_nbu crncy_list_nbu h_nbu nbu,
       download_rates_ url_list_cbr crncy_list_cbr ID_CBR h_cbr
       = (Ok cbr, ev_cbr) /\
       download_rates_ url_list_nbu crncy_list_nbu ID_NBU h_nbu
       = (Ok nbu, ev_nbu) /\
       r = Ok tt /\
       mail = if decide (form_email_body cbr.1 cbr.2 nbu.1 nbu.2 = "")
              then []
              else [EvSendEmail (form_email_body cbr.1 cbr.2 nbu.1 nbu.2)]).
Proof.
  unfold script. intros H.
  apply bind_inv in H as [(e & H & ->) | (ul1 & a1 & k & Hu1 & H & ->)].
  { apply get_url_list_calls in H as [Hc _].
    exists evs, [], [], [], []. rewrite !app_nil_r.
    split_and!; [done | done | constructor | by left | by left |].
    left. by eauto. }
  apply get_url_list_calls in Hu1 as [Ha1 Hn1].
  specialize (Hn1 _ eq_refl).
  apply bind_inv in H as [(e & H & ->) | (cl1 & b1 & k' & Hc1 & H & ->)].
  { apply get_crncy_list_calls in H.
    exists (a1 ++ k), [], [], [], []. rewrite !app_nil_r.
    split_and!; [done | by apply Forall_app | constructor | by left
                 | by left |].
    left. by eauto. }
  apply get_crncy_list_calls in Hc1. rename k' into k.
  assert (Hcommits1 : Forall (fun e : event Float => e = EvExecute Commit)
                             (a1 ++ b1)) by by apply Forall_app.
  apply bind_inv in H as [(e & H & ->) | (cbr & ev_cbr & k' & Hcbr & H & ->)].
  { exists (a1 ++ b1), k, [], [], []. rewrite !app_nil_r, <- app_assoc.
    split_and!; [done | done | constructor | | by left |].
    - right. by exists ul1, cl1, ((h ++ a1) ++ b1), (Raise e).
    - left. by eauto. }
  rename k' into k.
  apply bind_inv in H as [(e & H & ->) | (ul2 & a2 & k' & Hu2 & H & ->)].
  { apply get_url_list_calls in H as [Hc _].
    exists (a1 ++ b1), ev_cbr, k, [], []. rewrite !app_nil_r, <- app_assoc.
    split_and!; [done | done | done | | by left |].
    - right. by exists ul1, cl1, ((h ++ a1) ++ b1), (Ok cbr).
    - left. by eauto. }
  apply get_url_list_calls in Hu2 as [Ha2 Hn2].
  specialize (Hn2 _ eq_refl). rename k' into k.
  apply bind_inv in H as [(e & H & ->) | (cl2 & b2 & k' & Hc2 & H & ->)].
  { apply get_crncy_list_calls in H.
    exists (a1 ++ b1), ev_cbr, (a2 ++ k), [], [].
    rewrite !app_nil_r, <- !app_assoc.
    split_and!; [done | done | by apply Forall_app | | by left |].
    - right. by exists ul1, cl1, ((h ++ a1) ++ b1), (Ok cbr).
    - left. by eauto. }
  apply get_crncy_list_calls in Hc2. rename k' into k.
  assert (Hcommits2 : Forall (fun e : event Float => e = EvExecute Commit)
                             (a2 ++ b2)) by by apply Forall_app.
  apply bind_inv in H as [(e & H & ->) | (nbu & ev_nbu & k' & Hnbu & H & ->)].
  { exists (a1 ++ b1), ev_cbr, (a2 ++ b2), k, [].
    rewrite !app_nil_r, <- !app_assoc.
    split_and!; [done | done | done | | |].
    - right. by exists ul1, cl1, ((h ++ a1) ++ b1), (Ok cbr).
    - right. by eexists ul2, cl2, _, (Raise e).
    - left. by eauto. }
  rewrite notify_eq in H. injection H as <- <-.
  exists (a1 ++ b1), ev_cbr, (a2 ++ b2), ev_nbu. eexists.
  rewrite <- !app_assoc.
  split_and!; [done | done | done | | |].
  - right. by exists ul1, cl1, ((h ++ a1) ++ b1), (Ok cbr).
  - right. by eexists ul2, cl2, _, (Ok nbu).
  - right. by eexists ul1, cl1, _, cbr, ul2, cl2, _, nbu.
Qed.

Lemma form_email_body_empty has_cbr body_cbr has_nbu body_nbu :
  body_cbr <> "" -> body_nbu <> "" ->
  form_email_body has_cbr body_cbr has_nbu body_nbu = "" <->
  has_cbr = false /\ has_nbu = false.
Proof.
  intros Hc Hn. unfold form_email_body.
  destruct has_cbr, has_nbu; cbn [andb negb];
    change ("" +:+ body_cbr) with body_cbr;
    change ("" +:+ body_nbu) with body_nbu;
    (split; [intros H | intros [? ?]; congruence]); try done.
  by apply append_eq_nil in H as [? _].
Qed.

Lemma download_rates_flag url_list crncy_list var_in_crncy_id h res evs :
  download_rates_ url_list crncy_list var_in_crncy_id h = (Ok res, evs) ->
  res.2 <> "" /\ (res.1 = true <-> saved_pairs evs <> []).
Proof.
  intros H. apply download_loop_state in H as (rest & Hbody & Hnone & Hsome).
  cbn [fst snd] in *. split.
  - rewrite Hbody. intros E. apply append_eq_nil in E as [E _].
    by apply header_nonempty in E.
  - destruct (decide (saved_pairs evs = [])) as [E | E].
    + rewrite (Hnone E). cbn [fst]. by split.
    + by destruct (Hsome E) as [-> _].
Qed.

(** X5.  In one run of the main block no (source, currency, date) is saved
    twice, when no fetched document lists a currency code twice: the dates
    of a work list are the keys of a dictionary, the entries of a document
    are told apart by their codes, and the two sources by their
    identifiers.  The reads of the two lists and the email add no
    save. *)
Theorem script_saves_at_most_once (MAX_DATE : date)
    (h : list (event Float)) (r : result unit) (evs : list (event Float)) :
  (forall var_in_crncy_id h' url status body root,
      var_in_crncy_id = ID_CBR \/ var_in_crncy_id = ID_NBU ->
      requests_get h' url 30 = GetResponse status body ->
      is_http_error status = false ->
      fromstring body = Some root ->
      distinct_codes var_in_crncy_id root) ->
  script_ MAX_DATE h = (r, evs) ->
  NoDup (saved_triples evs).
Proof.
  intros Hdocs Hrun.
  apply script_trace in Hrun
      as (c1 & ev_cbr & c2 & ev_nbu & mail & -> & Hc1 & Hc2 & Hcbr & Hnbu
          & Hmail).
  apply commits_read in Hc1 as (_ & Hc1 & _).
  apply commits_read in Hc2 as (_ & Hc2 & _).
  assert (Hm : saved_triples mail = []).
  { destruct Hmail as [[_ ->] | (? & ? & ? & ? & ? & ? & ? & ? & _ & _ & _
                                 & ->)]; [done|].
    by case_decide. }
  rewrite !saved_triples_app, Hc1, Hc2, Hm, app_nil_r. cbn [app].
  assert (Hsrc : forall id ev,
             id = ID_CBR \/ id = ID_NBU ->
             (ev = [] \/
              exists url_list crncy_list h' r',
                NoDup url_list.*1 /\
                download_rates_ url_list crncy_list id h' = (r', ev)) ->
             NoDup (saved_triples ev) /\
             Forall (fun t => t.1.1 = id) (saved_triples ev)).
  { intros id ev Hid [-> | (ul & cl & h' & r' & Hn & Hr)];
      [split; constructor|].
    destruct (download_rates_read _ _ _ _ _ _ Hr) as [_ ->].
    apply download_loop_pairs in Hr as [Hp _]; [|done|by eauto]. split.
    - apply NoDup_fmap_2; [|done]. by intros [c d] [c' d'] [= -> ->].
    - by apply Forall_fmap, Forall_true. }
  destruct (Hsrc _ _ (or_introl eq_refl) Hcbr) as [Hn1 Hi1].
  destruct (Hsrc _ _ (or_intror eq_refl) Hnbu) as [Hn2 Hi2].
  apply NoDup_app. split_and!; [done | | done].
  intros t Ht1 Ht2.
  rewrite Forall_forall in Hi1, Hi2.
  pose proof (Hi1 _ Ht1) as E1. pose proof (Hi2 _ Ht2) as E2.
  rewrite E1 in E2. discriminate.
Qed.

(** X6.  The main block calls [send_email] at most once, after all its
    requests and database calls and only when none of them has raised; when
    none has, it calls [send_email] if and only if a rate was saved.  (What
    [send_email] does with the SMTP server is not modelled: the call is
    recorded.) *)
Theorem email_iff_saved (MAX_DATE : date)
    (h : list (event Float)) (r : result unit) (evs : list (event Float)) :
  script_ MAX_DATE h = (r, evs) ->
  (length (emails evs) <= 1)%nat /\
  (forall email_body,
      email_body ∈ emails evs ->
      last evs = Some (EvSendEmail email_body) /\ r = Ok tt) /\
  (r = Ok tt -> emails evs <> [] <-> saved_pairs evs <> []).
Proof.
  intros Hrun.
  apply script_trace in Hrun
      as (c1 & ev_cbr & c2 & ev_nbu & mail & -> & Hc1 & Hc2 & Hcbr & Hnbu
          & Hmail).
  apply commits_read in Hc1 as (Hc1 & _ & Hp1 & _).
  apply commits_read in Hc2 as (Hc2 & _ & Hp2 & _).
  assert (He1 : emails ev_cbr = []).
  { destruct Hcbr as [-> | (? & ? & ? & ? & _ & Hr)]; [done|].
    by apply download_rates_read in Hr as [-> _]. }
  assert (He2 : emails ev_nbu = []).
  { destruct Hnbu as [-> | (? & ? & ? & ? & _ & Hr)]; [done|].
    by apply download_rates_read in Hr as [-> _]. }
  rewrite !emails_app, !saved_pairs_app, Hc1, Hc2, He1, He2, Hp1, Hp2.
  cbn [app].
  destruct Hmail as [[[e ->] ->] | (ul1 & cl1 & h1 & cbr & ul2 & cl2 & h2
                                    & nbu & Hr1 & Hr2 & -> & ->)].
  { split_and!; [simpl; lia | by intros ? ?%elem_of_nil | by intros [=]]. }
  apply download_rates_flag in Hr1 as [Hb1 Hf1].
  apply download_rates_flag in Hr2 as [Hb2 Hf2].
  pose proof (form_email_body_empty cbr.1 cbr.2 nbu.1 nbu.2 Hb1 Hb2) as Hbody.
  case_decide as Hempty;
    cbn [emails saved_pairs omap list_omap saved_pair app length];
    fold (saved_pairs ev_cbr); fold (saved_pairs ev_nbu);
    rewrite ?app_nil_r.
  - split_and!; [simpl; lia | by intros ? ?%elem_of_nil |].
    intros _. apply Hbody in Hempty as [E1 E2]. split; [done|].
    intros Hs. destruct (saved_pairs ev_cbr) eqn:S1.
    + simpl in Hs. apply Hf2 in Hs. congruence.
    + assert (cbr.1 = true) by by apply Hf1. congruence.
  - split_and!; [simpl; lia | |].
    + intros body Hin. apply list_elem_of_singleton in Hin as ->.
      split; [|done]. by rewrite !app_assoc, last_snoc.
    + intros _. split; [|done]. intros _ Hs.
      apply app_eq_nil in Hs as [S1 Hs].
      apply Hempty, Hbody. split.
      * destruct cbr.1; [|done]. by destruct (proj1 Hf1 eq_refl).
      * destruct nbu.1; [|done]. by destruct (proj1 Hf2 eq_refl).
Qed.

End Properties.

(** * Worked examples

    The theorems above at the reference instances of [Sample]: the US
    dollar on 10 January 2024. *)

(** The scenario of the specification: the dollar rate of 10 January is
    newer than the 9th, so it is saved and reported. *)
Example end_to_end :
  Sample.download 10 [(Sample.jan 10, Sample.cbr_url 10)]
                        {[ "840" := Sample.jan 9 ]} 2 []
  = (Ok (true,
         header 2 +:+ "***** Exchange rates on date 2024-01-10 *****" +:+ nl
           +:+ "USD: 90,5000/1" +:+ nl +:+ nl),
     [EvGet (Sample.cbr_url 10) 30;
      EvExecute (SaveRate 2 (Some "840") (Sample.jan 10)
                          (NominalText (Some "1")) (181 # 2)%Q);
      EvExecute Commit]).
Proof. vm_compute. reflexivity. Qed.

(** C1 at the dollar entry, with the 9th as last-known date: kept. *)
Lemma staleness_filter_witness :
  (Sample.save_entry 10 (Sample.jan 10) (Sample.cbr_doc [Sample.usd_cbr]) 2
                        {[ "840" := Sample.jan 9 ]} "" Sample.usd_cbr []
   = (Ok "", [])
   <-> ~ newer {[ "840" := Sample.jan 9 ]} "840" (Sample.jan 10)) /\
  newer {[ "840" := Sample.jan 9 ]} "840" (Sample.jan 10).
Proof.
  split.
  - apply (staleness_filter Sample.strptime Sample.py_float
             (Sample.cur_execute 10) (Sample.jan 10)
             (Sample.cbr_doc [Sample.usd_cbr]) Sample.usd_cbr 2
             {[ "840" := Sample.jan 9 ]} "" "840" []).
    + vm_compute. reflexivity.
    + intros _. exists "10.01.2024". split; vm_compute; reflexivity.
  - exists (Sample.jan 9). split; vm_compute; reflexivity.
Defined.

(** C2: asked for the 11th, the document of the 10th gives nothing. *)
Lemma cbr_requires_declared_date_witness :
  let run := Sample.save_document 10 (Sample.jan 11) Sample.cbr_text 2
                              {[ "840" := Sample.jan 9 ]} [] in
  run.2 = [] /\ (run.1 = Ok "" \/ run.1 = Raise (KeyError "ID")).
Proof.
  intros run.
  apply (proj2 (cbr_requires_declared_date
                  (Sample.fromstring Sample.docs) Sample.strptime
                  Sample.py_float (Sample.cur_execute 10) (Sample.jan 11)
                  Sample.cbr_text (Sample.cbr_doc [Sample.usd_cbr])
                  {[ "840" := Sample.jan 9 ]} [] run.1 run.2
                  ltac:(vm_compute; reflexivity)
                  (surjective_pairing run))
           "10.01.2024" (Sample.jan 10));
    [vm_compute; reflexivity | vm_compute; reflexivity | discriminate].
Defined.

(** C3 as the specification has it fails: the document of the 9th is
    cut short, and the run ends there with [ParseError], the 10th never
    fetched; the database rejects the first rate of a document with two
    entries, and the run ends there with the driver's exception, the second
    entry never saved and the next work item never fetched. *)
Lemma errors_not_contained :
  Sample.download 10
    [(Sample.jan 9, Sample.cbr_url 9); (Sample.jan 10, Sample.cbr_url 10)]
    {[ "840" := Sample.jan 8 ]} 2 []
  = (Raise ParseError, [EvGet (Sample.cbr_url 9) 30]) /\
  Sample.download 1
    [(Sample.jan 11, Sample.nbu_url 11); (Sample.jan 10, Sample.nbu_url 10)]
    {[ "840" := Sample.jan 8 ]} 8 []
  = (Raise DatabaseError,
     [EvGet (Sample.nbu_url 11) 30;
      EvExecute (SaveRate 8 (Some "840") (Sample.jan 11) (NominalInt 1)
                          (23739 # 625)%Q)]).
Proof. split; vm_compute; reflexivity. Qed.

(** C3 as amended, at the document that is cut short. *)
Lemma errors_abort_the_run_witness :
  let run := Sample.download 10
               [(Sample.jan 9, Sample.cbr_url 9);
                (Sample.jan 10, Sample.cbr_url 10)]
               {[ "840" := Sample.jan 8 ]} 2 [] in
  run.1 = Raise ParseError /\ requests run.2 = [(Sample.cbr_url 9, 30)].
Proof.
  intros run. split; [|vm_compute; reflexivity].
  apply (errors_abort_the_run
           (Sample.fromstring Sample.docs) Sample.strptime Sample.py_float
           (Sample.requests_get Sample.site) (Sample.cur_execute 10)
           [(Sample.jan 9, Sample.cbr_url 9);
            (Sample.jan 10, Sample.cbr_url 10)]
           {[ "840" := Sample.jan 8 ]} 2 [] run.1 run.2
           [] (EvGet (Sample.cbr_url 9) 30) [] ParseError
           (surjective_pairing run));
    vm_compute; reflexivity.
Defined.

(** C4: the server answers 503 for the 13th and does not answer for the
    14th; the 10th is still fetched and saved. *)
Lemma failed_fetch_skips_item_witness :
  let loop := for_each
                (download_item (Sample.fromstring Sample.docs) Sample.strptime
                   Sample.py_float (Sample.requests_get Sample.site)
                   (Sample.cur_execute 10) 8 {[ "840" := Sample.jan 8 ]}) in
  let rest := [(Sample.jan 14, Sample.nbu_url 14);
               (Sample.jan 10, Sample.nbu_url 10)] in
  loop (false, header 8) ((Sample.jan 13, Sample.nbu_url 13) :: rest) []
  = ((loop (false, header 8) rest [EvGet (Sample.nbu_url 13) 30]).1,
     EvGet (Sample.nbu_url 13) 30
       :: (loop (false, header 8) rest [EvGet (Sample.nbu_url 13) 30]).2).
Proof.
  intros loop rest.
  apply (failed_fetch_skips_item
           (Sample.fromstring Sample.docs) Sample.strptime Sample.py_float
           (Sample.requests_get Sample.site) (Sample.cur_execute 10)
           8 {[ "840" := Sample.jan 8 ]} (false, header 8)
           (Sample.jan 13) (Sample.nbu_url 13) rest []).
  vm_compute. reflexivity.
Defined.

(** After the first run has saved the 10th, the last-known date is the
    10th: there is no new data for the second run. *)
Lemma second_run_up_to_date :
  up_to_date [(Sample.jan 10, Sample.cbr_url 10)] {[ "840" := Sample.jan 10 ]}.
Proof.
  intros d url code last Hin Hl.
  apply list_elem_of_singleton in Hin. injection Hin as -> ->.
  apply lookup_singleton_Some in Hl as [_ <-]. by right.
Qed.

(** C5 as the specification has it fails: the second run returns no
    changes, but its text is the header, not the empty string. *)
Lemma second_run_body_not_empty :
  up_to_date [(Sample.jan 10, Sample.cbr_url 10)]
             {[ "840" := Sample.jan 10 ]} /\
  no_new_data (Sample.fromstring Sample.docs) Sample.strptime
              (Sample.requests_get Sample.site) 2
              [(Sample.jan 10, Sample.cbr_url 10)]
              {[ "840" := Sample.jan 10 ]} /\
  Sample.download 10 [(Sample.jan 10, Sample.cbr_url 10)]
                        {[ "840" := Sample.jan 10 ]} 2 []
  = (Ok (false, "Downloaded exchange rates from CBR:" +:+ nl +:+ nl),
     [EvGet (Sample.cbr_url 10) 30]) /\
  "Downloaded exchange rates from CBR:" +:+ nl +:+ nl <> "".
Proof.
  split; [apply second_run_up_to_date|].
  split; [apply up_to_date_no_new_data, second_run_up_to_date|].
  split; [vm_compute; reflexivity | discriminate].
Qed.

(** The second run over the 10th and the 11th, when the server still
    answers the request for the 11th with the document of the 10th: the
    work list has a date after the last-known date, the documents have no
    observation after it. *)
Lemma second_run_no_new_data :
  no_new_data (Sample.fromstring Sample.docs) Sample.strptime
              (Sample.requests_get Sample.site) 2
              [(Sample.jan 10, Sample.cbr_url 10);
               (Sample.jan 11, Sample.cbr_url 11)]
              {[ "840" := Sample.jan 10 ]}.
Proof.
  intros d url h status body root currency code last Hin Hget _ Hroot
         (_ & _ & Hdate) Hlast.
  apply lookup_singleton_Some in Hlast as [_ <-].
  apply elem_of_cons in Hin as [[= -> ->] | Hin]; [by right|].
  apply list_elem_of_singleton in Hin. injection Hin as -> ->.
  vm_compute in Hget. injection Hget as <- <-.
  vm_compute in Hroot. injection Hroot as <-.
  destruct (Hdate eq_refl) as (declared & Hd & Hp).
  vm_compute in Hd. injection Hd as <-.
  vm_compute in Hp. discriminate.
Qed.

(** C5 as amended, at that second run: it makes its two requests and
    returns the flag [False] and the header. *)
Lemma no_new_data_run_witness :
  let url_list := [(Sample.jan 10, Sample.cbr_url 10);
                   (Sample.jan 11, Sample.cbr_url 11)] in
  let run := Sample.download 10 url_list {[ "840" := Sample.jan 10 ]} 2 [] in
  ~ up_to_date url_list {[ "840" := Sample.jan 10 ]} /\
  Forall is_get run.2 /\
  (forall res, run.1 = Ok res -> res = (false, header 2)) /\
  run.1 = Ok (false, header 2).
Proof.
  intros url_list run.
  destruct (no_new_data_run
              (Sample.fromstring Sample.docs) Sample.strptime Sample.py_float
              (Sample.requests_get Sample.site) (Sample.cur_execute 10)
              2 url_list {[ "840" := Sample.jan 10 ]} [] run.1 run.2
              second_run_no_new_data (surjective_pairing run))
    as (Hget & Hres & Hreturns & _).
  split.
  { intros Hup.
    assert (Hle : date_le (Sample.jan 11) (Sample.jan 10)).
    { apply (Hup (Sample.jan 11) (Sample.cbr_url 11) "840").
      - apply list_elem_of_further, list_elem_of_here.
      - apply lookup_singleton_eq. }
    destruct Hle as [Hlt | Heq]; [vm_compute in Hlt|]; discriminate. }
  split; [exact Hget|]. split; [exact Hres|].
  apply Hreturns.
  - intros h' d url Hin Hget'.
    apply elem_of_cons in Hin as [[= -> ->] | Hin];
      [|apply list_elem_of_singleton in Hin; injection Hin as -> ->];
      vm_compute in Hget'; discriminate.
  - intros h' d url status body Hin Hget' _.
    exists (Sample.cbr_doc [Sample.usd_cbr]).
    assert (Hbody : body = Sample.cbr_text).
    { apply elem_of_cons in Hin as [[= -> ->] | Hin];
        [|apply list_elem_of_singleton in Hin; injection Hin as -> ->];
        vm_compute in Hget'; injection Hget' as <- <-;
        vm_compute; reflexivity. }
    subst body. split; [vm_compute; reflexivity|]. split.
    + apply Forall_cons. split; [|apply Forall_nil_2].
      exists (Some "840"). vm_compute. reflexivity.
    + intros _. exists "10.01.2024", (Sample.jan 10).
      split; vm_compute; reflexivity.
Defined.

(** C7 as the specification has it fails: a document that lists the dollar
    twice has it saved twice for the same date. *)
Lemma duplicate_entry_saved_twice :
  let run := Sample.download 10 [(Sample.jan 11, Sample.nbu_url 11)]
                                   {[ "840" := Sample.jan 8 ]} 8 [] in
  saved_pairs run.2
  = [(Some "840", Sample.jan 11); (Some "840", Sample.jan 11)] /\
  ~ NoDup (saved_pairs run.2).
Proof.
  intros run.
  assert (Hpairs : saved_pairs run.2
                   = [(Some "840", Sample.jan 11); (Some "840", Sample.jan 11)])
    by (vm_compute; reflexivity).
  split; [exact Hpairs|]. rewrite Hpairs. intros Hnodup.
  apply NoDup_cons in Hnodup as [Hfresh _]. apply Hfresh.
  apply list_elem_of_here.
Qed.

(** What the table parser returns is in its table. *)
Lemma fromstring_table docs body root :
  Sample.fromstring docs body = Some root -> (body, root) ∈ docs.
Proof.
  unfold Sample.fromstring.
  destruct (list_find _ docs) as [[i [text root']]|] eqn:Hfind; [|done].
  intros [= ->]. apply list_find_Some in Hfind as (Hi & Ht & _).
  apply bool_decide_unpack in Ht. simpl in Ht. subst text.
  by eapply list_elem_of_lookup_2.
Qed.

(** For the CBR feed, no document of the table has two entries with the
    same code. *)
Lemma table_distinct_codes body root :
  Sample.fromstring Sample.docs body = Some root -> distinct_codes 2 root.
Proof.
  intros H. apply fromstring_table in H. unfold Sample.docs in H.
  repeat (apply elem_of_cons in H as [[= _ ->] | H]);
    [..| by apply elem_of_nil in H];
    unfold distinct_codes; vm_compute;
    first [apply NoDup_nil_2 | apply NoDup_singleton].
Qed.

(** C7 as amended, at a work list of two dates for the CBR feed. *)
Lemma saves_at_most_once_witness :
  let run := Sample.download 10
               [(Sample.jan 10, Sample.cbr_url 10);
                (Sample.jan 11, Sample.cbr_url 11)]
               {[ "840" := Sample.jan 8 ]} 2 [] in
  NoDup (saved_pairs run.2) /\
  saved_pairs run.2 = [(Some "840", Sample.jan 10)].
Proof.
  intros run. split; [|vm_compute; reflexivity].
  apply (saves_at_most_once
           (Sample.fromstring Sample.docs) Sample.strptime Sample.py_float
           (Sample.requests_get Sample.site) (Sample.cur_execute 10)
           2 [(Sample.jan 10, Sample.cbr_url 10);
              (Sample.jan 11, Sample.cbr_url 11)]
           {[ "840" := Sample.jan 8 ]} [] run.1 run.2).
  - vm_compute. apply NoDup_cons_2; [|apply NoDup_singleton].
    intros Hin. apply list_elem_of_singleton in Hin. discriminate.
  - intros h' url status body root _ _. apply table_distinct_codes.
  - apply surjective_pairing.
Defined.


(** C9 at a run that saves nothing: the text is the header. *)
Lemma report_starts_with_header_witness :
  Sample.download 10 [(Sample.jan 10, Sample.cbr_url 10)]
                        {[ "840" := Sample.jan 10 ]} 2 []
  = (Ok (false, header 2), [EvGet (Sample.cbr_url 10) 30]) /\
  header 2 <> "" /\
  exists sections, header 2 = header 2 +:+ sections.
Proof.
  assert (Hrun : Sample.download 10
                   [(Sample.jan 10, Sample.cbr_url 10)]
                   {[ "840" := Sample.jan 10 ]} 2 []
                 = (Ok (false, header 2), [EvGet (Sample.cbr_url 10) 30]))
    by (vm_compute; reflexivity).
  split; [exact Hrun|].
  destruct (report_starts_with_header
              (Sample.fromstring Sample.docs) Sample.strptime Sample.py_float
              (Sample.requests_get Sample.site) (Sample.cur_execute 10)
              [(Sample.jan 10, Sample.cbr_url 10)]
              {[ "840" := Sample.jan 10 ]} 2 [] false (header 2)
              [EvGet (Sample.cbr_url 10) 30] Hrun)
    as (_ & Hsections & Hne & _).
  split; [exact Hne | exact Hsections].
Defined.

(** C10 at an NBU entry without [r030], at a CBR root without [Date], and
    at a CBR entry without [CharCode], whose rate is saved before the
    exception ends the run. *)
Lemma missing_field_raises_key_error_witness :
  Sample.save_entry 10 (Sample.jan 10)
    (Sample.cbr_doc_undated [Sample.usd_cbr]) 2
    {[ "840" := Sample.jan 8 ]} "" Sample.usd_cbr []
  = (Raise (KeyError "Date"), []) /\
  Sample.save_entry 10 (Sample.jan 12)
    (Sample.nbu_doc [Sample.usd_nbu_without "r030"]) 8
    {[ "840" := Sample.jan 8 ]} "" (Sample.usd_nbu_without "r030") []
  = (Raise (KeyError "r030"), []) /\
  Sample.download 10 [(Sample.jan 10, Sample.cbr_url 8)]
                        {[ "840" := Sample.jan 8 ]} 2 []
  = (Raise (KeyError "CharCode"),
     [EvGet (Sample.cbr_url 8) 30;
      EvExecute (SaveRate 2 (Some "840") (Sample.jan 10)
                          (NominalText (Some "1")) (181 # 2)%Q);
      EvExecute Commit]).
Proof.
  split; [|split].
  - destruct (missing_field_raises_key_error
                (Sample.fromstring Sample.docs) Sample.strptime
                Sample.py_float (Sample.requests_get Sample.site)
                (Sample.cur_execute 10) (Sample.jan 10)
                (Sample.cbr_doc_undated [Sample.usd_cbr]) Sample.usd_cbr 2
                {[ "840" := Sample.jan 8 ]} "" [])
      as (Hcbr & _).
    assert (Hnewer : newer {[ "840" := Sample.jan 8 ]} "840" (Sample.jan 10))
      by (exists (Sample.jan 8); split; vm_compute; reflexivity).
    assert (Hid : attrib Sample.usd_cbr !! "ID" = Some "840")
      by (vm_compute; reflexivity).
    apply (proj1 (Hcbr "840" eq_refl Hid Hnewer)). vm_compute. reflexivity.
  - destruct (missing_field_raises_key_error
                (Sample.fromstring Sample.docs) Sample.strptime
                Sample.py_float (Sample.requests_get Sample.site)
                (Sample.cur_execute 10) (Sample.jan 12)
                (Sample.nbu_doc [Sample.usd_nbu_without "r030"])
                (Sample.usd_nbu_without "r030") 8
                {[ "840" := Sample.jan 8 ]} "" [])
      as (_ & Hnbu & _).
    apply Hnbu; [discriminate | vm_compute; reflexivity].
  - destruct (missing_field_raises_key_error
                (Sample.fromstring Sample.docs) Sample.strptime
                Sample.py_float (Sample.requests_get Sample.site)
                (Sample.cur_execute 10) (Sample.jan 10)
                (Sample.cbr_doc [Sample.usd_cbr_without "CharCode"])
                (Sample.usd_cbr_without "CharCode") 2
                {[ "840" := Sample.jan 8 ]} ""
                [EvGet (Sample.cbr_url 8) 30])
      as (Hcbr & _ & _ & Hup).
    assert (Hnewer : newer {[ "840" := Sample.jan 8 ]} "840" (Sample.jan 10))
      by (exists (Sample.jan 8); split; vm_compute; reflexivity).
    assert (Hid : attrib (Sample.usd_cbr_without "CharCode") !! "ID"
                  = Some "840") by (vm_compute; reflexivity).
    destruct (Hcbr "840" eq_refl Hid Hnewer) as [_ Hdated].
    assert (Hdate : attrib (Sample.cbr_doc [Sample.usd_cbr_without "CharCode"])
                      !! "Date" = Some "10.01.2024")
      by (vm_compute; reflexivity).
    assert (Hparse : Sample.strptime "10.01.2024" = Some (Sample.jan 10))
      by (vm_compute; reflexivity).
    destruct (Hdated "10.01.2024" Hdate Hparse) as (_ & _ & Hcharcode).
    apply (Hup (Sample.cbr_url 8) [] [] 200 Sample.cbr_no_charcode_text []);
      [vm_compute; reflexivity .. |].
    apply (Hcharcode (Some "840") (Some "1") "90,5000" (181 # 2)%Q);
      vm_compute; reflexivity.
Defined.

(** ** Worked examples for the cursor loops, the runs and the main block *)

(** X3 at two rows with different dates. *)
Lemma read_url_list_distinct_rows_witness :
  NoDup [(Sample.jan 10, Sample.cbr_url 10);
         (Sample.jan 11, Sample.cbr_url 11)].*1 /\
  (read_url_list [(Sample.jan 10, Sample.cbr_url 10);
                  (Sample.jan 11, Sample.cbr_url 11)]).1
  = [(Sample.jan 10, Sample.cbr_url 10); (Sample.jan 11, Sample.cbr_url 11)].
Proof.
  assert (Hrows : NoDup [(Sample.jan 10, Sample.cbr_url 10);
                         (Sample.jan 11, Sample.cbr_url 11)].*1).
  { vm_compute. apply NoDup_cons_2; [|apply NoDup_singleton].
    intros Hin. apply list_elem_of_singleton in Hin. discriminate. }
  split; [exact Hrows|].
  exact (read_url_list_distinct_rows _ Hrows).
Defined.

(** The documents of [Sample.sound_docs] list no code twice, for either
    source. *)
Lemma sound_docs_distinct_codes var_in_crncy_id body root :
  var_in_crncy_id = ID_CBR \/ var_in_crncy_id = ID_NBU ->
  Sample.fromstring Sample.sound_docs body = Some root ->
  distinct_codes var_in_crncy_id root.
Proof.
  intros Hid H. apply fromstring_table in H. unfold Sample.sound_docs in H.
  repeat (apply elem_of_cons in H as [[= _ ->] | H]);
    [..| by apply elem_of_nil in H];
    destruct Hid as [-> | ->]; unfold distinct_codes; vm_compute;
    first [apply NoDup_nil_2 | apply NoDup_singleton].
Qed.

(** X5 at a run of the main block that saves the dollar for both
    sources. *)
Lemma script_saves_at_most_once_witness :
  let run := Sample.run_script 100 (Sample.jan 12) [] in
  NoDup (saved_triples run.2) /\
  saved_triples run.2
  = [(2, Some "840", Sample.jan 10); (8, Some "840", Sample.jan 10)].
Proof.
  intros run. split; [|vm_compute; reflexivity].
  apply (script_saves_at_most_once
           (Sample.fromstring Sample.sound_docs) Sample.strptime
           Sample.py_float (Sample.requests_get Sample.site)
           (Sample.cur_execute 100)
           (Sample.f_crncy_downldr_return_url 100 Sample.url_table)
           (Sample.f_crncy_downldr_return_crncs 100 Sample.crncy_table)
           (Sample.jan 12) [] run.1 run.2).
  - intros id h' url status body root Hid _ _.
    by apply sound_docs_distinct_codes.
  - apply surjective_pairing.
Defined.

(** X6 at the same run, which sends its one email as the last call, and at
    a run that the database ends before the NBU is reached: no email. *)
Lemma email_iff_saved_witness :
  let run := Sample.run_script 100 (Sample.jan 12) [] in
  let cut := Sample.run_script 6 (Sample.jan 12) [] in
  run.1 = Ok tt /\ saved_pairs run.2 <> [] /\ length (emails run.2) = 1%nat /\
  (forall email_body,
      email_body ∈ emails run.2 ->
      last run.2 = Some (EvSendEmail email_body)) /\
  cut.1 = Raise DatabaseError /\ emails cut.2 = [].
Proof.
  intros run cut.
  destruct (email_iff_saved
              (Sample.fromstring Sample.sound_docs) Sample.strptime
              Sample.py_float (Sample.requests_get Sample.site)
              (Sample.cur_execute 100)
              (Sample.f_crncy_downldr_return_url 100 Sample.url_table)
              (Sample.f_crncy_downldr_return_crncs 100 Sample.crncy_table)
              (Sample.jan 12) [] run.1 run.2 (surjective_pairing run))
    as (_ & Hlast & Hiff).
  assert (Hok : run.1 = Ok tt) by (vm_compute; reflexivity).
  assert (Hsent : emails run.2 <> []) by (vm_compute; discriminate).
  split; [exact Hok|].
  split; [exact (proj1 (Hiff Hok) Hsent)|].
  split; [vm_compute; reflexivity|].
  split; [intros email_body Hin; exact (proj1 (Hlast email_body Hin))|].
  split; vm_compute; reflexivity.
Defined.

(** X7 at a run that saves one rate, and at one that saves nothing. *)
Lemma flag_iff_saved_witness :
  let run := Sample.download 10 [(Sample.jan 10, Sample.cbr_url 10)]
                             {[ "840" := Sample.jan 8 ]} 2 [] in
  let res := match run.1 with Ok res => res | Raise _ => (false, "") end in
  run.1 = Ok res /\ res.1 = true /\ saved_pairs run.2 <> [].
Proof.
  intros run res.
  assert (Hrun : Sample.download 10 [(Sample.jan 10, Sample.cbr_url 10)]
                                 {[ "840" := Sample.jan 8 ]} 2 []
                 = (Ok (res.1, res.2), run.2)) by (vm_compute; reflexivity).
  assert (Hflag : res.1 = true) by (vm_compute; reflexivity).
  split; [vm_compute; reflexivity|]. split; [exact Hflag|].
  exact (proj1 (flag_iff_saved
                  (Sample.fromstring Sample.docs) Sample.strptime
                  Sample.py_float (Sample.requests_get Sample.site)
                  (Sample.cur_execute 10)
                  [(Sample.jan 10, Sample.cbr_url 10)]
                  {[ "840" := Sample.jan 8 ]} 2 [] res.1 res.2 run.2 Hrun)
               Hflag).
Defined.

(** X8 at a run whose database fails at the save-rate call: the call is
    the last one, and the run has raised. *)
Lemma saves_are_committed_witness :
  let run := Sample.download 1 [(Sample.jan 10, Sample.cbr_url 10)]
                             {[ "840" := Sample.jan 8 ]} 2 [] in
  committed run.2 /\ dangling run.2 /\ run.1 = Raise DatabaseError.
Proof.
  intros run.
  destruct (saves_are_committed
              (Sample.fromstring Sample.docs) Sample.strptime Sample.py_float
              (Sample.requests_get Sample.site) (Sample.cur_execute 1)
              [(Sample.jan 10, Sample.cbr_url 10)]
              {[ "840" := Sample.jan 8 ]} 2 [] run.1 run.2
              (surjective_pairing run))
    as (Hcommitted & Hdangling & _).
  assert (Hlast : dangling run.2) by (vm_compute; exact I).
  split; [exact Hcommitted|]. split; [exact Hlast | exact (Hdangling Hlast)].
Defined.

(** X9 at the save of the dollar for the 10th, last known for the 8th. *)
Lemma saves_only_newer_witness :
  let run := Sample.download 10 [(Sample.jan 10, Sample.cbr_url 10)]
                             {[ "840" := Sample.jan 8 ]} 2 [] in
  EvExecute (SaveRate 2 (Some "840") (Sample.jan 10)
                      (NominalText (Some "1")) (181 # 2)%Q) ∈ run.2 /\
  Sample.jan 10 ∈ [(Sample.jan 10, Sample.cbr_url 10)].*1 /\
  exists code, newer {[ "840" := Sample.jan 8 ]} code (Sample.jan 10).
Proof.
  intros run.
  assert (Hin : EvExecute (SaveRate 2 (Some "840") (Sample.jan 10)
                                    (NominalText (Some "1")) (181 # 2)%Q)
                ∈ run.2).
  { assert (Hevs : run.2
                   = [EvGet (Sample.cbr_url 10) 30;
                      EvExecute (SaveRate 2 (Some "840") (Sample.jan 10)
                                          (NominalText (Some "1"))
                                          (181 # 2)%Q);
                      EvExecute Commit]) by (vm_compute; reflexivity).
    rewrite Hevs. apply list_elem_of_further, list_elem_of_here. }
  split; [exact Hin|].
  exact (proj2 (proj1 (saves_only_newer
                         (Sample.fromstring Sample.docs) Sample.strptime
                         Sample.py_float (Sample.requests_get Sample.site)
                         (Sample.cur_execute 10)
                         [(Sample.jan 10, Sample.cbr_url 10)]
                         {[ "840" := Sample.jan 8 ]} 2 [] run.1 run.2
                         (surjective_pairing run))
                      _ _ _ _ _ Hin)).
Defined.

(** X10 at a server that cannot be reached. *)
Lemma all_fetches_fail_witness :
  Sample.download_offline 10
    [(Sample.jan 10, Sample.cbr_url 10); (Sample.jan 11, Sample.cbr_url 11)]
    {[ "840" := Sample.jan 8 ]} 2 []
  = (Ok (false, header 2),
     (fun item => EvGet item.2 30)
       <$> [(Sample.jan 10, Sample.cbr_url 10);
            (Sample.jan 11, Sample.cbr_url 11)]).
Proof.
  apply (all_fetches_fail
           (Sample.fromstring Sample.docs) Sample.strptime Sample.py_float
           (Sample.requests_get []) (Sample.cur_execute 10)).
  intros h' url. exact I.
Defined.


(** X12 at a CBR entry with a child named [Identificator]: saved under the
    text of the child, looked up under the attribute. *)
Lemma last_child_wins_witness :
  filter_key 2 Sample.usd_cbr_renamed = Some (Some "840") /\
  persist_key 2 Sample.usd_cbr_renamed = Some (Some "R01235").
Proof.
  assert (Hid : attrib Sample.usd_cbr_renamed !! "ID" = Some "840")
    by (vm_compute; reflexivity).
  destruct (proj2 (proj2 (last_child_wins ∅ Sample.usd_cbr_renamed "ID"))
              "840" Hid) as (Hfilter & _ & Hpersist).
  split; [exact Hfilter|].
  apply (Hpersist (children Sample.usd_cbr)
                  (Sample.leaf "Identificator" "R01235") []).
  - reflexivity.
  - reflexivity.
  - apply Forall_nil_2.
Defined.

(** X13 at the CBR document of the 10th: one entry, one save. *)
Lemma one_save_per_entry_witness :
  let run := Sample.save_document 10 (Sample.jan 10) Sample.cbr_text 2
                                  {[ "840" := Sample.jan 8 ]} [] in
  saved_pairs run.2
    `sublist_of` (fun key => (key, Sample.jan 10)) <$>
                 omap (persist_key 2) [Sample.usd_cbr] /\
  (length (saved_pairs run.2) <= 1)%nat /\
  saved_pairs run.2 = [(Some "840", Sample.jan 10)].
Proof.
  intros run.
  assert (Hdoc : Sample.fromstring Sample.docs Sample.cbr_text
                 = Some (Sample.cbr_doc [Sample.usd_cbr]))
    by (vm_compute; reflexivity).
  destruct (one_save_per_entry
              (Sample.fromstring Sample.docs) Sample.strptime Sample.py_float
              (Sample.cur_execute 10) (Sample.jan 10) Sample.cbr_text
              (Sample.cbr_doc [Sample.usd_cbr]) 2
              {[ "840" := Sample.jan 8 ]} [] run.1 run.2 Hdoc
              (surjective_pairing run)) as [Hsub Hlen].
  split; [exact Hsub|]. split; [exact Hlen | vm_compute; reflexivity].
Defined.

(** X15 at an NBU entry last known for the 10th: skipped for the 10th, and
    so for the 9th. *)
Lemma nbu_filter_monotone_witness :
  Sample.save_entry 10 (Sample.jan 9) (Sample.nbu_doc [Sample.usd_nbu]) 8
                    {[ "840" := Sample.jan 10 ]} "" Sample.usd_nbu []
  = (Ok "", []).
Proof.
  assert (Hkey : filter_key 8 Sample.usd_nbu = Some (Some "840"))
    by (vm_compute; reflexivity).
  assert (Hle : date_le (Sample.jan 9) (Sample.jan 10))
    by (left; vm_compute; reflexivity).
  assert (Hskip : Sample.save_entry 10 (Sample.jan 10)
                    (Sample.nbu_doc [Sample.usd_nbu]) 8
                    {[ "840" := Sample.jan 10 ]} "" Sample.usd_nbu []
                  = (Ok "", [])) by (vm_compute; reflexivity).
  exact (nbu_filter_monotone
           Sample.strptime Sample.py_float (Sample.cur_execute 10)
           (Sample.jan 9) (Sample.jan 10) (Sample.nbu_doc [Sample.usd_nbu])
           Sample.usd_nbu 8 {[ "840" := Sample.jan 10 ]} "" "840" []
           ltac:(discriminate) Hkey Hle Hskip).
Defined.
